(** * mymodule.Person: a shallow embedding of [mymodule.c]

    [mymodule.c] defines one CPython extension type, [mymodule.Person], with
    two object-valued members ([first_name], [last_name]), one C [int] member
    ([number]), a [tp_new]/[tp_init] pair, a [tp_str] slot and one method
    [name()].

    The file has three parts.

    - The host: the fragment of the CPython C API that [mymodule.c] calls
      (argument parsing, member descriptors, string formatting, the type
      call).  These functions are not part of the repository; they are
      modelled after CPython 3.11 ([Python/getargs.c],
      [Python/structmember.c], [Objects/unicodeobject.c],
      [Objects/typeobject.c]), restricted to the format units and member
      types the module uses.
    - The module: [struct Person], [Person_new], [Person_init],
      [Person_str], [Person_members], [Person_name], [Person_methods],
      [PersonType], [version_difference] and [PyInit_mymodule], translated
      function by function.
    - The properties of the module.

    [Person_dealloc] only gives back the references of the two names and
    the object's memory; with reference counts left out there is nothing of
    it to model.

    Modelling conventions.  A C pointer to a Python object is an
    [option PyObject], [None] being [NULL].  Python values are immutable
    here, so reference counts carry no observable information and are left
    out.  A function that mutates [self] returns the new [self]; a function
    that reports failure through the interpreter's error indicator returns a
    [result].  Memory exhaustion is modelled where the module tests for it
    (in [Person_new]) by a budget of allocations the host can still serve.
    Whether the interpreter's warnings filter turns a warning into an
    exception is a parameter, [warnings_as_errors], of the functions that
    can warn. *)

From Stdlib Require Import ZArith String Ascii List Lia.
From Stdlib Require Import DecimalString DecimalZ DecimalPos.
From Stdlib Require HexadecimalString.
From stdpp Require Import gmap strings list fin_maps.

Open Scope string_scope.
Open Scope Z_scope.

(** ** The host: Python values and exceptions *)

Inductive exc_type :=
| PyExc_TypeError
| PyExc_OverflowError
| PyExc_AttributeError
| PyExc_MemoryError
| PyExc_SystemError
| PyExc_ValueError
| PyExc_RuntimeWarning
| PyExc_Exception.

(** The error indicator after [PyErr_SetString (type, message)]. *)
Record PyErr := PyErr_SetString { err_type : exc_type; err_msg : string }.

Inductive result (A : Type) :=
| Ok (a : A)
| Raise (e : PyErr).
Arguments Ok {A} a.
Arguments Raise {A} e.

#[global] Instance exc_type_eq_dec : EqDecision exc_type.
Proof. solve_decision. Defined.
#[global] Instance PyErr_eq_dec : EqDecision PyErr.
Proof. solve_decision. Defined.
#[global] Instance result_eq_dec {A} `{EqDecision A} : EqDecision (result A).
Proof. solve_decision. Defined.

#[global] Instance result_ret : MRet result := fun A a => Ok a.
#[global] Instance result_bind : MBind result := fun A B k r =>
  match r with
  | Ok a => k a
  | Raise e => Raise e
  end.

(** The values a caller can hand to the module.  [PyInstance] stands for an
    object of any other type, described by what the module can observe of
    it: its type name, the outcome of [str()] on it, and the outcome of its
    [__index__] slot when it has one ([None]: the type has no such slot).
    These outcomes are taken as fixed for each object. *)
Inductive PyObject :=
| PyUnicode (s : string)
| PyLong (n : Z)
| Py_None
| PyInstance (tp_name : string) (tp_str : result string)
             (nb_index : option (result Z)).

Definition Py_TYPE_name (o : PyObject) : string :=
  match o with
  | PyUnicode _ => "str"
  | PyLong _ => "int"
  | Py_None => "NoneType"
  | PyInstance tp_name _ _ => tp_name
  end.

Definition PyUnicode_Check (o : PyObject) : bool :=
  match o with PyUnicode _ => true | _ => false end.

Definition PyLong_Check (o : PyObject) : bool :=
  match o with PyLong _ => true | _ => false end.

(** [PyIndex_Check]: the type fills the [nb_index] slot. *)
Definition PyIndex_Check (o : PyObject) : bool :=
  match o with
  | PyLong _ => true
  | PyInstance _ _ (Some _) => true
  | _ => false
  end.

(** ** The host: C integers *)

Definition INT_MAX : Z := 2147483647.
Definition INT_MIN : Z := -2147483648.
(** LP64 [long]. *)
Definition LONG_MAX : Z := 9223372036854775807.
Definition LONG_MIN : Z := -9223372036854775808.

(** The conversion [(int)long_val]. *)
Definition int_of_long (z : Z) : Z :=
  (z - INT_MIN) mod (INT_MAX - INT_MIN + 1) + INT_MIN.

(** Base-10 rendering, as [%d] prints it. *)
Definition decimal (z : Z) : string := NilZero.string_of_int (Z.to_int z).
Definition decimal_nat (n : nat) : string := NilZero.string_of_uint (Nat.to_uint n).

(** [PyNumber_Index] followed by the range check of [PyLong_AsLong]. *)
Definition PyLong_AsLong (o : PyObject) : result Z :=
  n ← match o with
      | PyLong n => Ok n
      | PyInstance _ _ (Some r) => r
      | _ => Raise (PyErr_SetString PyExc_TypeError
               ("'" +:+ Py_TYPE_name o +:+
                "' object cannot be interpreted as an integer"))
      end;
  if (n <? LONG_MIN) || (LONG_MAX <? n)
  then Raise (PyErr_SetString PyExc_OverflowError
                "Python int too large to convert to C long")
  else Ok n.

(** The interpreter's limit on the digits of an integer converted to text
    ([sys.get_int_max_str_digits ()]), at its default. *)
Definition int_max_str_digits : Z := 4300.

(** [PyObject_Str]; on [NULL] it returns the text ["<NULL>"].  An integer
    with more digits than the interpreter's limit has no text form: the
    conversion raises [ValueError]. *)
Definition PyObject_Str (v : option PyObject) : result string :=
  match v with
  | None => Ok "<NULL>"
  | Some (PyUnicode s) => Ok s
  | Some (PyLong n) =>
      if 10 ^ int_max_str_digits <=? Z.abs n
      then Raise (PyErr_SetString PyExc_ValueError
                    ("Exceeds the limit (4300 digits) for integer string " +:+
                     "conversion; use sys.set_int_max_str_digits() to " +:+
                     "increase the limit"))
      else Ok (decimal n)
  | Some Py_None => Ok "None"
  | Some (PyInstance _ tp_str _) => tp_str
  end.

(** [PyErr_WarnEx (PyExc_RuntimeWarning, message, 1)].  Whether a warning
    is only reported or is raised as an exception is decided by the
    interpreter's warnings filter (for instance [python -W error]):
    [warnings_as_errors] stands for that configuration. *)
Definition PyErr_WarnEx (warnings_as_errors : bool) (message : string)
  : result unit :=
  if warnings_as_errors
  then Raise (PyErr_SetString PyExc_RuntimeWarning message)
  else Ok ().

(** ** The host: [PyArg_ParseTupleAndKeywords]

    [vgetargskeywords] of [Python/getargs.c], for format strings made of the
    units [O] and [i] and the marker [|], and keyword lists without
    positional-only (empty) names.  The C function stores each converted
    argument through its output pointer as soon as it is converted; the model
    returns, next to the outcome, the list of values stored so far, one entry
    per keyword-list position ([None]: nothing stored through that pointer).
    The order of the C function is kept: the arity check comes first, then
    the conversion loop, and only after the loop the checks for a parameter
    given both by position and by name and for unknown keywords.  A [NULL]
    keyword dictionary is the empty map. *)

Inductive c_value :=
| c_object (o : PyObject)
| c_int (n : Z).

(** [convertsimple] at unit [c]: [O] stores the object itself, unchecked;
    [i] converts through [PyLong_AsLong] and checks the [int] range. *)
Definition convertitem (c : ascii) (arg : PyObject) : result c_value :=
  if Ascii.eqb c "O" then Ok (c_object arg)
  else if Ascii.eqb c "i" then
    ival ← PyLong_AsLong arg;
    if INT_MAX <? ival
    then Raise (PyErr_SetString PyExc_OverflowError
                  "signed integer is greater than maximum")
    else if ival <? INT_MIN
    then Raise (PyErr_SetString PyExc_OverflowError
                  "signed integer is less than minimum")
    else Ok (c_int ival)
  else Raise (PyErr_SetString PyExc_SystemError "(impossible<bad format char>)").

Definition IS_END_OF_FORMAT (format : string) : bool :=
  match format with
  | EmptyString => true
  | String c _ => Ascii.eqb c ";" || Ascii.eqb c ":"
  end.

Definition plural (n : nat) : string := if (n =? 1)%nat then "" else "s".

Section vgetargskeywords.
Variable args : list PyObject.
Variable kwargs : gmap string PyObject.
Variable kwlist : list string.

(** The first parameter that was given both by position and by name. *)
Definition name_and_position : option (nat * string) :=
  List.find (fun ik => bool_decide (is_Some (kwargs !! ik.2)))
            (take (length args) (imap pair kwlist)).

(** The first key of the dictionary that names no parameter.  (CPython
    walks the dictionary in insertion order, the model in the map's own
    order; this only selects which key the message quotes.) *)
Definition extraneous_keyword : option string :=
  List.find (fun key => bool_decide (key ∉ kwlist)) (map_to_list kwargs).*1.

(** The checks after the conversion loop. *)
Definition vgetargskeywords_end (format : string) (nkwargs : nat)
  : result unit :=
  if negb (IS_END_OF_FORMAT format) &&
     negb (String.prefix "|" format) && negb (String.prefix "$" format)
  then Raise (PyErr_SetString PyExc_SystemError
                "more argument specifiers than keyword list entries")
  else if (0 <? nkwargs)%nat then
    match name_and_position with
    | Some (i, kw) =>
        Raise (PyErr_SetString PyExc_TypeError
                 ("argument for function given by name ('" +:+ kw +:+
                  "') and position (" +:+ decimal_nat (S i) +:+ ")"))
    | None =>
        match extraneous_keyword with
        | Some key =>
            Raise (PyErr_SetString PyExc_TypeError
                     ("'" +:+ key +:+
                      "' is an invalid keyword argument for this function"))
        | None => Ok ()
        end
    end
  else Ok ().

(** One turn of the conversion loop, at keyword-list position [i] for the
    parameter [kw], after a leading [|] was taken off [format]; [continue]
    is the rest of the loop.  [min] is the number of required parameters,
    [nkwargs] the keyword arguments not yet consumed. *)
Definition vgetargskeywords_unit (i : nat) (kw : string) (format : string)
    (min : Z) (nkwargs : nat)
    (continue : string → Z → nat → result unit * list (option c_value))
  : result unit * list (option c_value) :=
  match format with
  | String c format =>
      if Ascii.eqb c ";" || Ascii.eqb c ":" then
        (Raise (PyErr_SetString PyExc_SystemError
                  "More keyword list entries than format specifiers"), [])
      else
        let '(current_arg, nkwargs) :=
          match args !! i with
          | Some arg => (Some arg, nkwargs)
          | None =>
              if (0 <? nkwargs)%nat then
                match kwargs !! kw with
                | Some arg => (Some arg, Nat.pred nkwargs)
                | None => (None, nkwargs)
                end
              else (None, nkwargs)
          end in
        match current_arg with
        | Some arg =>
            match convertitem c arg with
            | Raise e => (Raise e, [])
            | Ok v =>
                let '(r, out) := continue format min nkwargs in
                (r, Some v :: out)
            end
        | None =>
            if Z.of_nat i <? min then
              (Raise (PyErr_SetString PyExc_TypeError
                        ("function missing required argument '" +:+ kw +:+
                         "' (pos " +:+ decimal_nat (S i) +:+ ")")), [])
            else if (nkwargs =? 0)%nat then (Ok (), [])
            else
              let '(r, out) := continue format min nkwargs in
              (r, None :: out)
        end
  | EmptyString =>
      (Raise (PyErr_SetString PyExc_SystemError
                "More keyword list entries than format specifiers"), [])
  end.

(** The conversion loop, from keyword-list position [i] on; [names] are
    the parameters still to visit. *)
Fixpoint vgetargskeywords_loop (i : nat) (names : list string)
    (format : string) (min : Z) (nkwargs : nat)
  : result unit * list (option c_value) :=
  match names with
  | [] => (vgetargskeywords_end format nkwargs, [])
  | kw :: names =>
      match format with
      | String c rest =>
          if Ascii.eqb c "|" && negb (min =? INT_MAX) then
            (Raise (PyErr_SetString PyExc_SystemError
                      "Invalid format string (| specified twice)"), [])
          else
            let '(min, format) :=
              if Ascii.eqb c "|" then (Z.of_nat i, rest) else (min, format) in
            vgetargskeywords_unit i kw format min nkwargs
              (vgetargskeywords_loop (S i) names)
      | EmptyString =>
          vgetargskeywords_unit i kw format min nkwargs
            (vgetargskeywords_loop (S i) names)
      end
  end.

Definition vgetargskeywords (format : string)
  : result unit * list (option c_value) :=
  let len := length kwlist in
  let nargs := length args in
  let nkwargs := size kwargs in
  if (len <? nargs + nkwargs)%nat then
    (Raise (PyErr_SetString PyExc_TypeError
              ("function takes at most " +:+ decimal_nat len +:+ " " +:+
               (if (nargs =? 0)%nat then "keyword " else "") +:+
               "argument" +:+ plural len +:+
               " (" +:+ decimal_nat (nargs + nkwargs) +:+ " given)")), [])
  else vgetargskeywords_loop 0 kwlist format INT_MAX nkwargs.
End vgetargskeywords.

Definition PyArg_ParseTupleAndKeywords (args : list PyObject)
    (kwds : gmap string PyObject) (format : string) (kwlist : list string)
  : result unit * list (option c_value) :=
  vgetargskeywords args kwds kwlist format.

(** ** The host: [PyUnicode_FromFormat]

    The directives [%S] (the [str()] of an object argument) and [%d] (a C
    [int] in base 10); every other character is copied.  Arguments are
    consumed left to right, and the first failing [str()] decides the
    exception.  A [NULL] object prints as ["<NULL>"] (in a release build; a
    debug build of the host asserts).  A directive without an argument of
    its C type is undefined behaviour in C and a [SystemError] here; the
    module has no such call. *)

Inductive va_arg :=
| va_object (o : option PyObject)
| va_int (n : Z).

Definition bad_format : PyErr :=
  PyErr_SetString PyExc_SystemError "bad format string or argument".

Fixpoint unicode_fromformat (format : string) (vargs : list va_arg)
  : result string :=
  match format with
  | EmptyString => Ok EmptyString
  | String c rest =>
      if Ascii.eqb c "%" then
        match rest, vargs with
        | String d rest', va_object obj :: vargs' =>
            if Ascii.eqb d "S" then
              s ← PyObject_Str obj;
              t ← unicode_fromformat rest' vargs';
              Ok (s +:+ t)
            else Raise bad_format
        | String d rest', va_int n :: vargs' =>
            if Ascii.eqb d "d" then
              t ← unicode_fromformat rest' vargs';
              Ok (decimal n +:+ t)
            else Raise bad_format
        | _, _ => Raise bad_format
        end
      else
        t ← unicode_fromformat rest vargs;
        Ok (String c t)
  end.

Definition PyUnicode_FromFormat (format : string) (vargs : list va_arg)
  : result PyObject :=
  s ← unicode_fromformat format vargs;
  Ok (PyUnicode s).

(** ** The host: allocation

    [mem] is the number of allocations the host can still serve; an
    allocation returns [None] (a [NULL] pointer, [MemoryError] set) when
    none is left. *)

Definition PyErr_NoMemory : PyErr := PyErr_SetString PyExc_MemoryError "".

Definition PyUnicode_FromString (u : string) (mem : nat)
  : option (PyObject * nat) :=
  match mem with
  | O => None
  | S mem => Some (PyUnicode u, mem)
  end.

(** ** The module: [struct Person] *)

(** [first_name] and [last_name] are [PyObject *], [NULL] when unset;
    [number] is a C [int]. *)
Record Person := {
  first_name : option PyObject;
  last_name : option PyObject;
  number : Z
}.

Definition set_first_name (v : option PyObject) (self : Person) : Person :=
  {| first_name := v; last_name := last_name self; number := number self |}.
Definition set_last_name (v : option PyObject) (self : Person) : Person :=
  {| first_name := first_name self; last_name := v; number := number self |}.
Definition set_number (n : Z) (self : Person) : Person :=
  {| first_name := first_name self; last_name := last_name self; number := n |}.

(** [type->tp_alloc (type, 0)]: a zero-filled object. *)
Definition tp_alloc (mem : nat) : option (Person * nat) :=
  match mem with
  | O => None
  | S mem => Some ({| first_name := None; last_name := None; number := 0 |}, mem)
  end.

(** ** The host: member descriptors ([structmember.c]) *)

Inductive member_type := T_INT | T_OBJECT_EX.

Definition READONLY : Z := 1.

(** [offsetof (struct Person, _)]. *)
Inductive Person_offset :=
| offsetof_first_name
| offsetof_last_name
| offsetof_number.

Record PyMemberDef := {
  name : string;
  type : member_type;
  offset : Person_offset;
  flags : Z;
  doc : string
}.

(** Reads and writes of [*(PyObject ** )addr] and [*(int * )addr] at
    [addr = (char * )self + offset].  An access at an offset of the other C
    type is filled in with a neutral value; [Person_members] has none. *)
Definition load_object (self : Person) (off : Person_offset) : option PyObject :=
  match off with
  | offsetof_first_name => first_name self
  | offsetof_last_name => last_name self
  | offsetof_number => None
  end.

Definition store_object (self : Person) (off : Person_offset)
    (v : option PyObject) : Person :=
  match off with
  | offsetof_first_name => set_first_name v self
  | offsetof_last_name => set_last_name v self
  | offsetof_number => self
  end.

Definition load_int (self : Person) (off : Person_offset) : Z :=
  match off with
  | offsetof_number => number self
  | _ => 0
  end.

Definition store_int (self : Person) (off : Person_offset) (n : Z) : Person :=
  match off with
  | offsetof_number => set_number n self
  | _ => self
  end.

(** [Py_TYPE (self)->tp_name] of a record that is an instance of the type
    itself: the [tp_name] of [PersonType]. *)
Definition Py_TYPE_Person_name : string := "mymodule.Person".

(** Reading a member: [T_INT] builds a Python integer, [T_OBJECT_EX] returns
    the object and raises [AttributeError] on [NULL], with the message
    "'<type>' object has no attribute '<name>'". *)
Definition PyMember_GetOne (self : Person) (l : PyMemberDef) : result PyObject :=
  match type l with
  | T_INT => Ok (PyLong (load_int self (offset l)))
  | T_OBJECT_EX =>
      match load_object self (offset l) with
      | None =>
          Raise (PyErr_SetString PyExc_AttributeError
                   ("'" +:+ Py_TYPE_Person_name +:+
                    "' object has no attribute '" +:+ name l +:+ "'"))
      | Some v => Ok v
      end
  end.

(** Writing a member; [v = None] is deletion ([del self.attr]).  [T_INT]
    converts through [PyLong_AsLong] and stores [(int)long_val]; when the
    value was outside the [int] range the host then issues a
    [RuntimeWarning], after the store: under a warnings filter that raises
    it ([warnings_as_errors]) the assignment fails with the truncated value
    already in the record.  [T_OBJECT_EX] stores the pointer, whatever the
    object. *)
Definition PyMember_SetOne (warnings_as_errors : bool) (self : Person)
    (l : PyMemberDef) (v : option PyObject) : Person * result unit :=
  if negb (Z.land (flags l) READONLY =? 0) then
    (self, Raise (PyErr_SetString PyExc_AttributeError "readonly attribute"))
  else
    match v, type l with
    | None, T_OBJECT_EX =>
        match load_object self (offset l) with
        | None => (self, Raise (PyErr_SetString PyExc_AttributeError (name l)))
        | Some _ => (store_object self (offset l) None, Ok ())
        end
    | None, T_INT =>
        (self, Raise (PyErr_SetString PyExc_TypeError
                        "can't delete numeric/char attribute"))
    | Some v, T_INT =>
        match PyLong_AsLong v with
        | Raise e => (self, Raise e)
        | Ok long_val =>
            (store_int self (offset l) (int_of_long long_val),
             if (INT_MAX <? long_val) || (long_val <? INT_MIN)
             then PyErr_WarnEx warnings_as_errors "Truncation of value to int"
             else Ok ())
        end
    | Some v, T_OBJECT_EX => (store_object self (offset l) (Some v), Ok ())
    end.

(** ** The module: [mymodule.c] *)

(** [Person_new]: allocate, then fill in the defaults; each of the three
    allocations may fail, and the object is then released and [NULL]
    returned.  [args] and [kwds] are not looked at. *)
Definition Person_new (mem : nat) (args : list PyObject)
    (kwds : gmap string PyObject) : result Person :=
  match tp_alloc mem with
  | None => Raise PyErr_NoMemory
  | Some (self, mem) =>
      match PyUnicode_FromString "John" mem with
      | None => Raise PyErr_NoMemory
      | Some (john, mem) =>
          let self := set_first_name (Some john) self in
          match PyUnicode_FromString "Doe" mem with
          | None => Raise PyErr_NoMemory
          | Some (doe, mem) =>
              let self := set_last_name (Some doe) self in
              let self := set_number 42 self in
              Ok self
          end
      end
  end.

Definition kwlist : list string := ["first_name"; "last_name"; "number"].

(** [Person_init].  The parser is handed [&first_name], [&last_name] (two
    locals, initially [NULL]) and [&self->number]: what it stores through the
    third pointer lands in the object at once, whatever the parser returns in
    the end.  The two branches of the [PY_MINOR_VERSION] conditional store
    the new pointer alike.  [Raise] is the C return value [-1], [Ok] is
    [0]. *)
Definition Person_init (self : Person) (args : list PyObject)
    (kwds : gmap string PyObject) : Person * result unit :=
  let '(parsed, stored) :=
    PyArg_ParseTupleAndKeywords args kwds "|OOi" kwlist in
  let first_name :=
    match stored !! 0%nat with Some (Some (c_object o)) => Some o | _ => None end in
  let last_name :=
    match stored !! 1%nat with Some (Some (c_object o)) => Some o | _ => None end in
  let self :=
    match stored !! 2%nat with Some (Some (c_int n)) => set_number n self | _ => self end in
  match parsed with
  | Raise e => (self, Raise e)
  | Ok _ =>
      let self :=
        match first_name with
        | Some o => set_first_name (Some o) self
        | None => self
        end in
      let self :=
        match last_name with
        | Some o => set_last_name (Some o) self
        | None => self
        end in
      (self, Ok ())
  end.

Definition Person_str (self : Person) : result PyObject :=
  PyUnicode_FromFormat "Person(first_name=%S, last_name=%S, number=%d)"
    [va_object (first_name self); va_object (last_name self);
     va_int (number self)].

Definition Person_members : list PyMemberDef := [
  {| name := "first_name"; type := T_OBJECT_EX; offset := offsetof_first_name;
     flags := 0; doc := "First name of the person" |};
  {| name := "last_name"; type := T_OBJECT_EX; offset := offsetof_last_name;
     flags := 0; doc := "Last name of the person" |};
  {| name := "number"; type := T_INT; offset := offsetof_number;
     flags := 0; doc := "First name of the person" |}
].

Definition Person_name (self : Person) : result PyObject :=
  match first_name self with
  | None => Raise (PyErr_SetString PyExc_AttributeError "first_name")
  | Some _ =>
      match last_name self with
      | None => Raise (PyErr_SetString PyExc_AttributeError "last_name")
      | Some _ =>
          PyUnicode_FromFormat "%S %S"
            [va_object (first_name self); va_object (last_name self)]
      end
  end.

(** ** The host: how the interpreter drives the type *)

(** Calling the type, [Person(...)], the [tp_call] of [type]: [tp_new], then
    [tp_init] on the new object; when [tp_init] fails the object is released
    and the caller receives the exception only. *)
Definition type_call (mem : nat) (args : list PyObject)
    (kwds : gmap string PyObject) : result Person :=
  obj ← Person_new mem args kwds;
  let '(obj, res) := Person_init obj args kwds in
  match res with
  | Raise e => Raise e
  | Ok _ => Ok obj
  end.

Definition METH_NOARGS : Z := 4.

Record PyMethodDef := {
  ml_name : string;
  ml_meth : Person → result PyObject;
  ml_flags : Z;
  ml_doc : string
}.

Definition Person_methods : list PyMethodDef := [
  {| ml_name := "name"; ml_meth := Person_name; ml_flags := METH_NOARGS;
     ml_doc := "Return the name of a person combining first and last names" |}
].

Definition find_member (attr : string) : option PyMemberDef :=
  List.find (fun l => String.eqb (name l) attr) Person_members.

(** [self.attr] for an attribute that [Person_members] declares ([None]
    otherwise: methods and what [object] provides are resolved by the type
    and are no data of the record). *)
Definition Person_getattr (self : Person) (attr : string)
  : option (result PyObject) :=
  PyMember_GetOne self <$> find_member attr.

(** [self.attr = v] ([v = Some _]) and [del self.attr] ([v = None]).  The
    instances have no [__dict__], so only the declared members can be set:
    a method of the type is read-only, and any other name is no attribute.
    (The names that every object has from [object], such as [__class__],
    are rejected by the host as well, with messages of their own that are
    not modelled.) *)
Definition Person_setattr (warnings_as_errors : bool) (self : Person)
    (attr : string) (v : option PyObject) : Person * result unit :=
  match find_member attr with
  | Some l => PyMember_SetOne warnings_as_errors self l v
  | None =>
      if existsb (fun m => String.eqb (ml_name m) attr) Person_methods then
        (self, Raise (PyErr_SetString PyExc_AttributeError
                        ("'" +:+ Py_TYPE_Person_name +:+
                         "' object attribute '" +:+ attr +:+
                         "' is read-only")))
      else
        (self, Raise (PyErr_SetString PyExc_AttributeError
                        ("'" +:+ Py_TYPE_Person_name +:+
                         "' object has no attribute '" +:+ attr +:+ "'")))
  end.

(** The operations a caller has on a constructed record, and the record
    they leave behind (whether or not they raise), under the warnings
    configuration [warnings_as_errors]. *)
Inductive operation :=
| op_get (attr : string)
| op_set (attr : string) (v : PyObject)
| op_del (attr : string)
| op_name
| op_str
| op_init (args : list PyObject) (kwds : gmap string PyObject).

Definition step (warnings_as_errors : bool) (self : Person)
    (op : operation) : Person :=
  match op with
  | op_get _ | op_name | op_str => self
  | op_set attr v => (Person_setattr warnings_as_errors self attr (Some v)).1
  | op_del attr => (Person_setattr warnings_as_errors self attr None).1
  | op_init args kwds => (Person_init self args kwds).1
  end.

Definition run (warnings_as_errors : bool) (ops : list operation)
    (self : Person) : Person :=
  foldl (step warnings_as_errors) self ops.

Definition is_deletion (op : operation) : bool :=
  match op with op_del _ => true | _ => false end.

(** The values a call or an operation hands to the record. *)
Definition call_values (args : list PyObject) (kwds : gmap string PyObject)
  : list PyObject :=
  args ++ (map_to_list kwds).*2.

Definition supplied_values (op : operation) : list PyObject :=
  match op with
  | op_set _ v => [v]
  | op_init args kwds => call_values args kwds
  | _ => []
  end.

(** The argument bound to the parameter at keyword-list position [i]:
    positional if there are that many positional arguments, by keyword
    otherwise. *)
Definition argument (args : list PyObject) (kwds : gmap string PyObject)
    (i : nat) : option PyObject :=
  match args !! i with
  | Some v => Some v
  | None => kw ← kwlist !! i; kwds !! kw
  end.

(** A call that binds every argument to one of the three parameters, once:
    at most three positional arguments, every keyword a parameter name, and
    no keyword for a parameter that a positional argument fills. *)
Definition binds_parameters (args : list PyObject)
    (kwds : gmap string PyObject) : Prop :=
  (length args <= 3)%nat ∧
  map_Forall (fun kw _ => kw ∈ kwlist) kwds ∧
  Forall (fun kw => kwds !! kw = None) (take (length args) kwlist).

(** The C [int] an object converts to under the format unit [i]. *)
Definition as_int (v : PyObject) (n : Z) : Prop :=
  PyLong_AsLong v = Ok n ∧ INT_MIN <= n <= INT_MAX.

(** The C [int] that the parameter [number] receives: the converted argument
    if one is bound to it, the record's current value otherwise. *)
Definition int_argument (args : list PyObject) (kwds : gmap string PyObject)
    (current n : Z) : Prop :=
  match argument args kwds 2 with
  | Some v => as_int v n
  | None => n = current
  end.

(** The pointer a name parameter leaves in its field. *)
Definition bound (arg current : option PyObject) : option PyObject :=
  match arg with
  | Some v => Some v
  | None => current
  end.

(** What a converted value tells about the argument it was converted from. *)
Definition converted_from (v : PyObject) (cv : c_value) : Prop :=
  match cv with
  | c_object o => o = v
  | c_int n => as_int v n
  end.

(** A field that is set, to the default [d] or to one of the values [vs]. *)
Definition holds (d : PyObject) (vs : list PyObject)
    (field : option PyObject) : Prop :=
  ∃ v, field = Some v ∧ (v = d ∨ v ∈ vs).

(** Whether the dictionary has the key [kw], as a count. *)
Definition present (kwds : gmap string PyObject) (kw : string) : nat :=
  match kwds !! kw with
  | Some _ => 1
  | None => 0
  end.

#[global] Instance binds_parameters_dec args kwds :
  Decision (binds_parameters args kwds).
Proof. unfold binds_parameters. apply _. Defined.

#[global] Instance as_int_dec v n : Decision (as_int v n).
Proof. unfold as_int. apply _. Defined.

#[global] Instance int_argument_dec args kwds current n :
  Decision (int_argument args kwds current n).
Proof. unfold int_argument. destruct (argument args kwds 2); apply _. Defined.

(** The assignments that a call stands for: one per bound parameter, in the
    order of the parameters. *)
Definition assignments (args : list PyObject) (kwds : gmap string PyObject)
  : list operation :=
  (op_set "first_name" <$> option_list (argument args kwds 0)) ++
  (op_set "last_name" <$> option_list (argument args kwds 1)) ++
  (op_set "number" <$> option_list (argument args kwds 2)).

(** ** The module: the type object and the module initialisation *)

(** The slots that [PersonType] fills.  Its sizes, flags and [tp_dealloc]
    concern the memory layout and the release of the object and are left
    out. *)
Record PyTypeObject := {
  tp_name : string;
  tp_doc : string;
  tp_new : nat → list PyObject → gmap string PyObject → result Person;
  tp_init : Person → list PyObject → gmap string PyObject →
            Person * result unit;
  tp_members : list PyMemberDef;
  tp_str : Person → result PyObject;
  tp_methods : list PyMethodDef
}.

Definition PersonType : PyTypeObject := {|
  tp_name := "mymodule.Person";
  tp_doc := "Person object";
  tp_new := Person_new;
  tp_init := Person_init;
  tp_members := Person_members;
  tp_str := Person_str;
  tp_methods := Person_methods
|}.

Record PyModuleDef := {
  m_name : string;
  m_doc : string;
  m_size : Z
}.

Definition mymodulemodule : PyModuleDef := {|
  m_name := "mymodule";
  m_doc := "Example module that creates a Person type";
  m_size := -1
|}.

(** A module object: its definition and the objects added to it. *)
Record PyModule := {
  md_def : PyModuleDef;
  md_dict : gmap string PyTypeObject
}.

Inductive PythonVersionDifference := DIFFERENT_MAJOR | DIFFERENT_MINOR | SAME.

(** What the host answers to the three calls of [PyInit_mymodule] that can
    fail: [PyType_Ready], [PyModule_Create] and [PyModule_AddObject]
    ([true]: success). *)
Record host_answers := {
  type_ready : bool;
  module_created : bool;
  object_added : bool
}.

(** What a run of [PyInit_mymodule] leaves: the module it returns ([None]:
    [NULL]), the text written to the standard output, and the references to
    [PersonType] it has taken and not given back. *)
Record initialisation := {
  returned : option PyModule;
  stdout : string;
  PersonType_references : Z
}.

Definition LF : string := String (ascii_of_nat 10) EmptyString.

(** [%x] of an unsigned number. *)
Definition hexadecimal (n : N) : string :=
  HexadecimalString.NilZero.string_of_uint (N.to_hex_uint n).

Section PyInit.
(** The version the module was compiled for: macros of the host's headers. *)
Variable PY_MAJOR_VERSION : Z.
Variable PY_MINOR_VERSION : Z.
Variable PY_VERSION_HEX : N.

(** [version_difference].  [major] and [minor] are [sys.version_info.major]
    and [sys.version_info.minor] of the running interpreter, as the C longs
    that [PyLong_AsLong] returns (the [import sys] that the function runs
    first does not change them); the second component is the text
    printed. *)
Definition version_difference (major minor : Z)
  : PythonVersionDifference * string :=
  if negb (major =? PY_MAJOR_VERSION) then
    (DIFFERENT_MAJOR,
     "mymodule was built for version '" +:+ decimal PY_MAJOR_VERSION +:+
     "' but is being run by python '" +:+ decimal major +:+ "'" +:+ LF)
  else if negb (minor =? PY_MINOR_VERSION) then
    (DIFFERENT_MINOR,
     "mymodule was built for version '" +:+ decimal PY_MAJOR_VERSION +:+
     "." +:+ decimal PY_MINOR_VERSION +:+
     "' but is being run by python '" +:+ decimal major +:+ "." +:+
     decimal minor +:+ "'" +:+ LF)
  else (SAME, EmptyString).

(** [PyInit_mymodule]. *)
Definition PyInit_mymodule (host : host_answers) (major minor : Z)
  : initialisation :=
  let '(difference, out) := version_difference major minor in
  match difference with
  | DIFFERENT_MAJOR =>
      {| returned := None;
         stdout := out +:+
           "mymodule: Different major versions: For sure that won't work!" +:+
           LF;
         PersonType_references := 0 |}
  | _ =>
      let out :=
        match difference with
        | DIFFERENT_MINOR =>
            out +:+ "mymodule: different python versions not sure what the implication is" +:+ LF
        | _ => out
        end in
      if negb (type_ready host) then
        {| returned := None; stdout := out; PersonType_references := 0 |}
      else if negb (module_created host) then
        {| returned := None; stdout := out; PersonType_references := 0 |}
      else
        let references := 0 + 1 in
        if negb (object_added host) then
          {| returned := None; stdout := out;
             PersonType_references := references - 1 |}
        else
          {| returned :=
               Some {| md_def := mymodulemodule;
                       md_dict := {["Person" := PersonType]} |};
             stdout := out +:+ "PY_VERSION_HEX = " +:+
                       hexadecimal PY_VERSION_HEX +:+ LF;
             PersonType_references := references |}
  end.
End PyInit.

(** Proof steps shared by the case analyses of [Person_init]: the shapes of
    a call, and one run of the parser on a shape. *)
Ltac call_shapes args kwds rest :=
  destruct args as [|? [|? [|? [|? args]]]];
  destruct (kwds !! "first_name") eqn:?H1, (kwds !! "last_name") eqn:?H2,
    (kwds !! "number") eqn:?H3;
  do 4 (try destruct rest as [|rest]).

Ltac run_parser Hsize H1 H2 H3 :=
  unfold Person_init, PyArg_ParseTupleAndKeywords, vgetargskeywords;
  rewrite Hsize; simpl; rewrite ?H1, ?H2, ?H3; simpl;
  unfold vgetargskeywords_end, name_and_position; simpl;
  rewrite ?H1, ?H2, ?H3; simpl.

(** Evaluating a format string while [str()] of the fields stays symbolic. *)
Ltac run_format :=
  cbv - [PyObject_Str decimal String.append first_name last_name number].

(** * Properties *)

(** ** The keyword dictionary *)

(** No key is extraneous exactly when every key names a parameter. *)
Lemma extraneous_keyword_None (kwds : gmap string PyObject) (names : list string) :
  extraneous_keyword kwds names = None ↔
  ∀ kw, is_Some (kwds !! kw) → kw ∈ names.
Proof.
  unfold extraneous_keyword. split.
  - intros Hfind kw [v Hv].
    destruct (decide (kw ∈ names)) as [|Hnot]; [done|exfalso].
    assert (Hin : In kw (map_to_list kwds).*1).
    { apply list_elem_of_In, list_elem_of_fmap. exists (kw, v). split; [done|].
      by apply elem_of_map_to_list. }
    pose proof (find_none _ _ Hfind kw Hin) as Hf.
    by apply bool_decide_eq_false in Hf.
  - intros Hall. destruct (List.find _ _) as [key|] eqn:Hfind; [exfalso|done].
    apply find_some in Hfind as [Hin Hkey].
    apply bool_decide_eq_true in Hkey. apply Hkey, Hall.
    apply list_elem_of_In, list_elem_of_fmap in Hin as [[k v] [-> Hin]].
    apply elem_of_map_to_list in Hin. by exists v.
Qed.

Lemma size_delete_present (m : gmap string PyObject) (kw : string) :
  size m = (present m kw + size (delete kw m))%nat.
Proof.
  unfold present. rewrite map_size_delete.
  destruct (m !! kw) eqn:Hkw; simpl; [|done].
  assert (size m ≠ 0%nat) by (apply (map_size_ne_0_lookup_2 m kw); eauto). lia.
Qed.

Lemma elem_of_kwlist (kw : string) :
  kw ∈ kwlist ↔ kw = "first_name" ∨ kw = "last_name" ∨ kw = "number".
Proof.
  unfold kwlist. rewrite !elem_of_cons, elem_of_nil. tauto.
Qed.

(** The size of the dictionary splits into the three parameter names it has
    and a rest, which is empty exactly when no other key occurs. *)
Lemma size_kwds (kwds : gmap string PyObject) :
  ∃ rest : nat,
    size kwds = (present kwds "first_name" + present kwds "last_name" +
                 present kwds "number" + rest)%nat ∧
    (rest = 0%nat ↔ ∀ kw, is_Some (kwds !! kw) → kw ∈ kwlist).
Proof.
  exists (size (delete "first_name" (delete "last_name" (delete "number" kwds)))).
  split.
  - rewrite (size_delete_present kwds "number").
    rewrite (size_delete_present (delete "number" kwds) "last_name").
    rewrite (size_delete_present (delete "last_name" (delete "number" kwds))
               "first_name").
    unfold present. rewrite !lookup_delete_ne by done. lia.
  - rewrite map_size_empty_iff. split.
    + intros Hempty kw Hkw. apply elem_of_kwlist.
      destruct (decide (kw = "first_name")) as [->|?]; [by left|].
      destruct (decide (kw = "last_name")) as [->|?]; [by right; left|].
      destruct (decide (kw = "number")) as [->|?]; [by right; right|].
      exfalso.
      assert (H : delete "first_name" (delete "last_name" (delete "number" kwds))
                    !! kw = kwds !! kw) by (by rewrite !lookup_delete_ne).
      rewrite Hempty, lookup_empty in H. rewrite <- H in Hkw. by destruct Hkw.
    + intros Hall. apply map_eq. intros kw. rewrite lookup_empty.
      destruct (decide (kw = "first_name")) as [->|?]; [by rewrite lookup_delete_eq|].
      rewrite lookup_delete_ne by done.
      destruct (decide (kw = "last_name")) as [->|?]; [by rewrite lookup_delete_eq|].
      rewrite lookup_delete_ne by done.
      destruct (decide (kw = "number")) as [->|?]; [by rewrite lookup_delete_eq|].
      rewrite lookup_delete_ne by done.
      destruct (kwds !! kw) eqn:Hkw; [exfalso|done].
      assert (Hin : kw ∈ kwlist) by (apply Hall; eauto).
      apply elem_of_kwlist in Hin. destruct Hin as [?|[?|?]]; congruence.
Qed.

Lemma binds_parameters_keys args kwds :
  binds_parameters args kwds → ∀ kw, is_Some (kwds !! kw) → kw ∈ kwlist.
Proof. intros (_ & Hall & _) kw [v Hv]. exact (Hall kw v Hv). Qed.

(** ** Conversions *)

Lemma PyLong_AsLong_int (n : Z) :
  INT_MIN <= n <= INT_MAX → PyLong_AsLong (PyLong n) = Ok n.
Proof.
  unfold PyLong_AsLong, INT_MIN, INT_MAX. intros Hn. simpl.
  destruct (n <? LONG_MIN) eqn:H1;
    [apply Z.ltb_lt in H1; unfold LONG_MIN in H1; lia|].
  destruct (LONG_MAX <? n) eqn:H2;
    [apply Z.ltb_lt in H2; unfold LONG_MAX in H2; lia|].
  done.
Qed.

Lemma PyLong_AsLong_not_index (v : PyObject) :
  PyIndex_Check v = false →
  ∃ e, PyLong_AsLong v = Raise e ∧ err_type e = PyExc_TypeError.
Proof.
  unfold PyLong_AsLong.
  destruct v as [s|n| |tp_name tp_str [r|]]; try discriminate; intros _;
    simpl; eauto.
Qed.

Lemma convertitem_i_ok v n : as_int v n → convertitem "i" v = Ok (c_int n).
Proof.
  intros [Hv Hn]. unfold convertitem. simpl. rewrite Hv. simpl.
  destruct (INT_MAX <? n) eqn:H1; [apply Z.ltb_lt in H1; lia|].
  destruct (n <? INT_MIN) eqn:H2; [apply Z.ltb_lt in H2; lia|]. done.
Qed.

Lemma convertitem_i_not_index v :
  PyIndex_Check v = false →
  ∃ e, convertitem "i" v = Raise e ∧ err_type e = PyExc_TypeError.
Proof.
  intros Hv. destruct (PyLong_AsLong_not_index v Hv) as (e & He & Hty).
  exists e. unfold convertitem. simpl. by rewrite He.
Qed.

Lemma convertitem_Ok c v cv : convertitem c v = Ok cv → converted_from v cv.
Proof.
  unfold convertitem.
  destruct (Ascii.eqb c "O"); [intros [= <-]; done|].
  destruct (Ascii.eqb c "i"); [|done].
  destruct (PyLong_AsLong v) as [n|e] eqn:Hv; simpl; [|done].
  destruct (INT_MAX <? n) eqn:H1; [done|].
  destruct (n <? INT_MIN) eqn:H2; [done|].
  intros [= <-]. split; [done|].
  apply Z.ltb_ge in H1, H2. lia.
Qed.

Lemma convertitem_i_Ok v cv :
  convertitem "i" v = Ok cv → ∃ n, cv = c_int n ∧ as_int v n.
Proof.
  intros H. pose proof (convertitem_Ok _ _ _ H) as Hfrom. revert H.
  unfold convertitem. simpl.
  destruct (PyLong_AsLong v) as [n|e]; simpl; [|done].
  destruct (INT_MAX <? n); [done|]. destruct (n <? INT_MIN); [done|].
  intros [= <-]. eauto.
Qed.

(** ** The argument parser *)

(** Whatever the loop stores at position [j] was converted from the argument
    bound to the parameter at that position; by induction on the parameters
    still to visit. *)
Lemma vgetargskeywords_loop_stored args kwargs kwlist0 names :
  ∀ i format min nkwargs r out j cv,
    vgetargskeywords_loop args kwargs kwlist0 i names format min nkwargs
      = (r, out) →
    out !! j = Some (Some cv) →
    ∃ v, match args !! (i + j)%nat with
         | Some a => Some a
         | None => kw ← names !! j; kwargs !! kw
         end = Some v ∧ converted_from v cv.
Proof.
  induction names as [|kw names IH]; intros i format min nkwargs r out j cv.
  { simpl. intros [= <- <-]. done. }
  cbn [vgetargskeywords_loop].
  assert (Hunit : ∀ format min nkwargs,
    vgetargskeywords_unit args kwargs i kw format min nkwargs
      (vgetargskeywords_loop args kwargs kwlist0 (S i) names) = (r, out) →
    out !! j = Some (Some cv) →
    ∃ v, match args !! (i + j)%nat with
         | Some a => Some a
         | None => kw' ← (kw :: names) !! j; kwargs !! kw'
         end = Some v ∧ converted_from v cv).
  { clear format min nkwargs. intros format min nkwargs.
    unfold vgetargskeywords_unit.
    destruct format as [|c format]; [intros [= <- <-]; done|].
    destruct (_ || _); [intros [= <- <-]; done|].
    assert (Hcur : ∃ cur nk,
      match args !! i with
      | Some arg => (Some arg, nkwargs)
      | None =>
          if (0 <? nkwargs)%nat
          then match kwargs !! kw with
               | Some arg => (Some arg, Nat.pred nkwargs)
               | None => (None, nkwargs)
               end
          else (None, nkwargs)
      end = (cur, nk) ∧
      (∀ arg, cur = Some arg →
         match args !! i with Some a => Some a | None => kwargs !! kw end
           = Some arg)).
    { destruct (args !! i);
        [|destruct (0 <? nkwargs)%nat; [destruct (kwargs !! kw) eqn:Hkw|]];
        eexists _, _; (split; [done|]); congruence. }
    destruct Hcur as (cur & nk & -> & Hcur).
    destruct cur as [arg|].
    - destruct (convertitem c arg) as [v|e] eqn:Hconv; [|intros [= <- <-]; done].
      destruct (vgetargskeywords_loop _ _ _ _ _ _ _ _) as [r' out'] eqn:Hloop.
      intros [= <- <-]. destruct j as [|j]; simpl.
      + intros [= <-]. rewrite Nat.add_0_r.
        exists arg. split; [|by eapply convertitem_Ok].
        specialize (Hcur arg eq_refl). by destruct (args !! i).
      + rewrite Nat.add_succ_r. intros Hj. by eapply (IH (S i)).
    - destruct (Z.of_nat i <? min); [intros [= <- <-]; done|].
      destruct (nk =? 0)%nat; [intros [= <- <-]; done|].
      destruct (vgetargskeywords_loop _ _ _ _ _ _ _ _) as [r' out'] eqn:Hloop.
      intros [= <- <-]. destruct j as [|j]; simpl; [done|].
      rewrite Nat.add_succ_r. intros Hj. by eapply (IH (S i)). }
  destruct format as [|c rest]; [apply Hunit|].
  destruct (_ && _); [intros [= <- <-]; done|].
  destruct (Ascii.eqb c "|"); apply Hunit.
Qed.

Lemma PyArg_ParseTupleAndKeywords_stored args kwds format r out j cv :
  PyArg_ParseTupleAndKeywords args kwds format kwlist = (r, out) →
  out !! j = Some (Some cv) →
  ∃ v, argument args kwds j = Some v ∧ converted_from v cv.
Proof.
  unfold PyArg_ParseTupleAndKeywords, vgetargskeywords.
  destruct (_ <? _)%nat; [intros [= <- <-]; done|].
  intros Hloop Hj.
  apply (vgetargskeywords_loop_stored _ _ _ _ _ _ _ _ _ _ _ _ Hloop Hj).
Qed.

(** ** [Person_init], by cases on the call

    The three lemmas below walk through the parser on all shapes of a call:
    the number of positional arguments (0 to 3, or more), which of the three
    parameter names the dictionary has, and how many other keys. *)

(** A well-formed call succeeds and leaves each field bound to its argument,
    or untouched. *)
Lemma Person_init_ok self args kwds n :
  binds_parameters args kwds →
  int_argument args kwds (number self) n →
  Person_init self args kwds =
    ({| first_name := bound (argument args kwds 0) (first_name self);
        last_name := bound (argument args kwds 1) (last_name self);
        number := n |}, Ok ()).
Proof.
  intros Hbinds Hn.
  destruct (size_kwds kwds) as (rest & Hsize & Hrest).
  pose proof (proj2 Hrest (binds_parameters_keys _ _ Hbinds)) as ->. clear Hrest.
  destruct Hbinds as (Hlen & _ & Hdisj).
  unfold int_argument, argument in Hn. unfold argument.
  unfold present in Hsize.
  destruct args as [|a0 [|a1 [|a2 [|a3 args]]]]; simpl in Hlen, Hdisj; try lia.
  all: repeat (apply Forall_cons in Hdisj as [?Hpos Hdisj]).
  all: destruct (kwds !! "first_name") eqn:H1, (kwds !! "last_name") eqn:H2,
      (kwds !! "number") eqn:H3; try discriminate; simpl in Hn.
  all: rewrite ?H3 in Hn.
  all: run_parser Hsize H1 H2 H3.
  all: try rewrite (convertitem_i_ok _ _ Hn); simpl.
  all: try (subst n; by destruct self).
  all: done.
Qed.

(** A successful call was well formed. *)
Lemma Person_init_Ok_inv self args kwds self' :
  Person_init self args kwds = (self', Ok ()) →
  binds_parameters args kwds ∧ ∃ n, int_argument args kwds (number self) n.
Proof.
  destruct (size_kwds kwds) as (rest & Hsize & Hrest).
  unfold binds_parameters, int_argument, argument.
  unfold present in Hsize.
  call_shapes args kwds rest.
  all: run_parser Hsize H1 H2 H3.
  all: try discriminate.
  all: try (destruct (extraneous_keyword kwds kwlist) eqn:Hx; [simpl; discriminate|];
            discriminate (proj2 Hrest (proj1 (extraneous_keyword_None _ _) Hx))).
  all: try (destruct (convertitem "i" _) as [cv|e] eqn:Hc; simpl; [|discriminate];
            apply convertitem_i_Ok in Hc as (n & -> & Hn)).
  all: unfold vgetargskeywords_end, name_and_position; simpl;
       rewrite ?H1, ?H2, ?H3; simpl.
  all: try discriminate.
  all: try (destruct (extraneous_keyword kwds kwlist) eqn:Hx; [simpl; discriminate|];
            discriminate (proj2 Hrest (proj1 (extraneous_keyword_None _ _) Hx))).
  all: intros _; (split; [|by eauto]).
  all: split; [simpl; lia|].
  all: split; [intros kw v Hv; apply (proj1 Hrest eq_refl); eauto|].
  all: repeat constructor; assumption.
Qed.

(** When the argument for [number] does not convert, the call fails before
    anything is stored: with the conversion's exception, or with the arity
    error when there are too many arguments. *)
Lemma Person_init_conversion_error self args kwds v e :
  argument args kwds 2 = Some v →
  convertitem "i" v = Raise e →
  ∃ e', Person_init self args kwds = (self, Raise e') ∧
        (e' = e ∨
         (3 < length args + size kwds)%nat ∧ err_type e' = PyExc_TypeError).
Proof.
  intros Harg Hconv.
  destruct (size_kwds kwds) as (rest & Hsize & _).
  unfold argument in Harg. unfold present in Hsize.
  call_shapes args kwds rest; simpl in Harg; rewrite ?H3 in Harg;
    try discriminate Harg.
  all: run_parser Hsize H1 H2 H3.
  all: try (injection Harg as ->); rewrite ?Hconv; simpl.
  all: try (eexists; split; [reflexivity|]; by left).
  all: eexists; split; [reflexivity|]; right; split; [lia|done].
Qed.

(** ** Construction *)

Lemma Person_new_ok mem args kwds :
  (3 <= mem)%nat →
  Person_new mem args kwds =
    Ok {| first_name := Some (PyUnicode "John");
          last_name := Some (PyUnicode "Doe");
          number := 42 |}.
Proof. intros Hmem. destruct mem as [|[|[|mem]]]; [lia..|done]. Qed.

Lemma Person_new_Ok_inv mem args kwds self :
  Person_new mem args kwds = Ok self →
  (3 <= mem)%nat ∧
  self = {| first_name := Some (PyUnicode "John");
            last_name := Some (PyUnicode "Doe");
            number := 42 |}.
Proof.
  destruct mem as [|[|[|mem]]]; try discriminate.
  intros [= <-]. split; [lia|done].
Qed.

Lemma type_call_unfold mem args kwds :
  type_call mem args kwds =
    match Person_new mem args kwds with
    | Raise e => Raise e
    | Ok obj =>
        match Person_init obj args kwds with
        | (obj, Ok _) => Ok obj
        | (_, Raise e) => Raise e
        end
    end.
Proof.
  unfold type_call. destruct (Person_new mem args kwds) as [obj|e]; [|done].
  simpl. by destruct (Person_init obj args kwds) as [obj' [[]|e]].
Qed.

(** A well-formed construction, with memory for the three allocations,
    returns the record of the bound arguments and the defaults. *)
Lemma type_call_ok mem args kwds n :
  (3 <= mem)%nat →
  binds_parameters args kwds →
  int_argument args kwds 42 n →
  type_call mem args kwds =
    Ok {| first_name := bound (argument args kwds 0) (Some (PyUnicode "John"));
          last_name := bound (argument args kwds 1) (Some (PyUnicode "Doe"));
          number := n |}.
Proof.
  intros Hmem Hbinds Hn.
  rewrite type_call_unfold, (Person_new_ok _ _ _ Hmem).
  by rewrite (Person_init_ok
                {| first_name := Some (PyUnicode "John");
                   last_name := Some (PyUnicode "Doe"); number := 42 |}
                args kwds n Hbinds Hn).
Qed.





(** C9. Constructing a Person with more than three positional arguments
    fails with the arity error (a [TypeError] in CPython) and produces no
    record.  With a memory budget below three allocations the construction
    fails earlier, in [Person_new]. *)
Theorem Person_construction_arity mem args kwds :
  (3 < length args)%nat →
  ∃ e, type_call mem args kwds = Raise e ∧
       ((3 <= mem)%nat →
        e = PyErr_SetString PyExc_TypeError
              ("function takes at most 3 arguments (" +:+
               decimal_nat (length args + size kwds) +:+ " given)")).
Proof.
  intros Hlen. rewrite type_call_unfold.
  destruct (Person_new mem args kwds) as [obj|e] eqn:Hnew.
  - unfold Person_init, PyArg_ParseTupleAndKeywords, vgetargskeywords.
    assert (Hfull : (length kwlist <? length args + size kwds)%nat = true)
      by (apply Nat.ltb_lt; simpl; lia).
    assert (Hpos : (length args =? 0)%nat = false)
      by (apply Nat.eqb_neq; lia).
    rewrite Hfull, Hpos. simpl. eauto.
  - exists e. split; [done|]. intros Hmem.
    by rewrite (Person_new_ok _ _ _ Hmem) in Hnew.
Qed.

Lemma Person_construction_arity_witness :
  ∃ e, type_call 3 [PyUnicode "a"; PyUnicode "b"; PyLong 1; PyLong 2] ∅
         = Raise e ∧
       ((3 <= 3)%nat →
        e = PyErr_SetString PyExc_TypeError
              "function takes at most 3 arguments (4 given)").
Proof.
  exact (Person_construction_arity 3
           [PyUnicode "a"; PyUnicode "b"; PyLong 1; PyLong 2] ∅
           ltac:(simpl; lia)).
Defined.

(** ** Text *)


Lemma string_app_empty_r (s : string) : s +:+ "" = s.
Proof.
  induction s as [|c s IH]; [done|].
  change (String c (s +:+ "") = String c s). by rewrite IH.
Qed.







(** C8. [name()] on a record in which first_name or last_name is absent
    fails with an [AttributeError] naming the absent field, first_name being
    checked before last_name; when both are present that branch is not
    taken, and the result is the joined text (or whatever [str()] of a field
    raises). *)
Theorem Person_name_missing_field self :
  Person_name self =
    match first_name self, last_name self with
    | None, _ => Raise (PyErr_SetString PyExc_AttributeError "first_name")
    | Some _, None => Raise (PyErr_SetString PyExc_AttributeError "last_name")
    | Some fn, Some ln =>
        f ← PyObject_Str (Some fn);
        l ← PyObject_Str (Some ln);
        Ok (PyUnicode (f +:+ " " +:+ l))
    end.
Proof.
  unfold Person_name, PyUnicode_FromFormat.
  destruct (first_name self) as [fn|], (last_name self) as [ln|]; try done.
  run_format.
  destruct (PyObject_Str (Some fn)) as [f|e]; [|done].
  destruct (PyObject_Str (Some ln)) as [l|e]; [|done].
  by rewrite string_app_empty_r.
Qed.

(** ** Failure *)

(** A failed [Person_init] has not touched the two names; [number] is as it
    was, or already holds the converted argument. *)
Lemma Person_init_Raise_frame self args kwds self' e :
  Person_init self args kwds = (self', Raise e) →
  first_name self' = first_name self ∧
  last_name self' = last_name self ∧
  (number self' = number self ∨
   ∃ v, argument args kwds 2 = Some v ∧ as_int v (number self')).
Proof.
  unfold Person_init.
  destruct (PyArg_ParseTupleAndKeywords args kwds "|OOi" kwlist)
    as [[[]|e'] stored] eqn:Hparse; [discriminate|].
  intros [= <- <-].
  destruct (stored !! 2%nat) as [[[o|n]|]|] eqn:Hstored; simpl; auto.
  destruct (PyArg_ParseTupleAndKeywords_stored _ _ _ _ _ _ _ Hparse Hstored)
    as (v & Hv & Hconv).
  repeat split; [done..|]. right. by exists v.
Qed.

(** C4, as amended.  Construction is atomic with respect to failure:
    constructing with a value for number that is not an integer (one that
    has no integer conversion) fails with a [TypeError]; a construction
    returns a record only when [Person_init] ran to its end on a well-formed
    call, and every field is then set; a failed construction returns the
    exception and no record.  When [Person_init] is applied to an existing
    record and fails, first_name and last_name are left unchanged, and number
    is either unchanged or already holds the converted number argument; it is
    unchanged when the number argument is the one that does not convert. *)
Theorem Person_construction_atomic mem args kwds self :
  (∀ v, argument args kwds 2 = Some v → PyIndex_Check v = false →
     (∃ e, type_call mem args kwds = Raise e ∧
           ((3 <= mem)%nat → err_type e = PyExc_TypeError)) ∧
     (∃ e, Person_init self args kwds = (self, Raise e) ∧
           err_type e = PyExc_TypeError)) ∧
  (∀ p, type_call mem args kwds = Ok p →
     ∃ n, binds_parameters args kwds ∧ int_argument args kwds 42 n ∧
          p = {| first_name :=
                   bound (argument args kwds 0) (Some (PyUnicode "John"));
                 last_name :=
                   bound (argument args kwds 1) (Some (PyUnicode "Doe"));
                 number := n |} ∧
          is_Some (first_name p) ∧ is_Some (last_name p)) ∧
  (∀ self' e, Person_init self args kwds = (self', Raise e) →
     first_name self' = first_name self ∧
     last_name self' = last_name self ∧
     (number self' = number self ∨
      ∃ v, argument args kwds 2 = Some v ∧ as_int v (number self'))).
Proof.
  split; [|split].
  - intros v Harg Hv.
    destruct (convertitem_i_not_index v Hv) as (e & Hconv & Hty).
    assert (Hinit : ∀ obj, ∃ e', Person_init obj args kwds = (obj, Raise e') ∧
                                 err_type e' = PyExc_TypeError).
    { intros obj.
      destruct (Person_init_conversion_error obj _ _ _ _ Harg Hconv)
        as (e' & Hinit & [->|[_ Hty']]); eauto. }
    split; [|apply Hinit].
    rewrite type_call_unfold.
    destruct (Person_new mem args kwds) as [obj|e0] eqn:Hnew.
    + destruct (Hinit obj) as (e' & -> & Hty'). eauto.
    + exists e0. split; [done|]. intros Hmem.
      by rewrite (Person_new_ok _ _ _ Hmem) in Hnew.
  - intros p. rewrite type_call_unfold.
    destruct (Person_new mem args kwds) as [obj|e0] eqn:Hnew; [|done].
    apply Person_new_Ok_inv in Hnew as [_ ->].
    destruct (Person_init _ args kwds) as [obj' [[]|e']] eqn:Hinit; [|done].
    intros [= ->].
    destruct (Person_init_Ok_inv _ _ _ _ Hinit) as (Hbinds & n & Hn).
    rewrite (Person_init_ok _ _ _ n Hbinds Hn) in Hinit.
    injection Hinit as <-. exists n. do 3 (split; [done|]). split; simpl.
    + destruct (argument args kwds 0); simpl; eauto.
    + destruct (argument args kwds 1); simpl; eauto.
  - intros self' e. apply Person_init_Raise_frame.
Qed.

(** Constructing with [number="not-a-number"]. *)
Lemma Person_construction_atomic_witness :
  ∃ e, type_call 3 [] {["number" := PyUnicode "not-a-number"]} = Raise e ∧
       ((3 <= 3)%nat → err_type e = PyExc_TypeError).
Proof.
  refine (proj1 (proj1 (Person_construction_atomic 3 []
                          {["number" := PyUnicode "not-a-number"]}
                          {| first_name := None; last_name := None; number := 0 |})
                   (PyUnicode "not-a-number") _ _));
    vm_compute; reflexivity.
Defined.

(** C4 as stated fails where it says that a failed init leaves all three
    fields unchanged: re-initializing the default record with [number=5]
    and an unknown keyword fails, and number is 5 afterwards. *)
Lemma Person_init_failure_stores_number :
  type_call 3 [] ∅ =
    Ok {| first_name := Some (PyUnicode "John");
          last_name := Some (PyUnicode "Doe"); number := 42 |} ∧
  Person_init
    {| first_name := Some (PyUnicode "John");
       last_name := Some (PyUnicode "Doe"); number := 42 |}
    [] (<["number" := PyLong 5]> {["bogus" := PyLong 1]}) =
    ({| first_name := Some (PyUnicode "John");
        last_name := Some (PyUnicode "Doe"); number := 5 |},
     Raise (PyErr_SetString PyExc_TypeError
              "'bogus' is an invalid keyword argument for this function")).
Proof. split; vm_compute; reflexivity. Qed.

(** ** Members *)

Lemma int_of_long_int (n : Z) : INT_MIN <= n <= INT_MAX → int_of_long n = n.
Proof.
  unfold int_of_long, INT_MIN, INT_MAX. intros Hn.
  rewrite Z.mod_small by lia. lia.
Qed.

(** Every entry of the table reads its field at the field's own C type. *)
Lemma Person_members_well_typed :
  Forall (fun l => type l = T_INT ↔ offset l = offsetof_number) Person_members.
Proof. repeat constructor; done. Qed.

Lemma Person_setattr_number werror self v :
  Person_setattr werror self "number" (Some v) =
    match PyLong_AsLong v with
    | Ok long_val =>
        (set_number (int_of_long long_val) self,
         if (INT_MAX <? long_val) || (long_val <? INT_MIN)
         then PyErr_WarnEx werror "Truncation of value to int"
         else Ok ())
    | Raise e => (self, Raise e)
    end.
Proof. reflexivity. Qed.

(** Inside the [int] range the assignment stores the value and issues no
    warning. *)
Lemma Person_setattr_number_int werror self v n :
  as_int v n →
  Person_setattr werror self "number" (Some v) = (set_number n self, Ok ()).
Proof.
  intros [Hv Hn]. rewrite Person_setattr_number, Hv, int_of_long_int by done.
  destruct (INT_MAX <? n) eqn:H1; [apply Z.ltb_lt in H1; lia|].
  destruct (n <? INT_MIN) eqn:H2; [apply Z.ltb_lt in H2; lia|]. done.
Qed.

(** C5, as amended.  Assignment to first_name or last_name performs no
    validation: every value, text or not, is accepted and stored, and
    construction likewise accepts any value for first_name and last_name.
    Assignment to number is validated for type: a value that is not an
    integer (one that has no integer conversion) is rejected with a
    [TypeError] and leaves the record as it was, and every value that
    converts to a C int is accepted and stored.  All of it holds under
    every warnings configuration [werror]. *)
Theorem Person_assignment_validation werror mem self v w :
  Person_setattr werror self "first_name" (Some v)
    = (set_first_name (Some v) self, Ok ()) ∧
  Person_setattr werror self "last_name" (Some v)
    = (set_last_name (Some v) self, Ok ()) ∧
  (PyIndex_Check v = false →
   ∃ e, Person_setattr werror self "number" (Some v) = (self, Raise e) ∧
        err_type e = PyExc_TypeError) ∧
  (∀ n, as_int v n →
        Person_setattr werror self "number" (Some v)
          = (set_number n self, Ok ())) ∧
  ((3 <= mem)%nat →
   type_call mem [v; w] ∅ =
     Ok {| first_name := Some v; last_name := Some w; number := 42 |} ∧
   type_call mem [] (<["first_name" := v]> {["last_name" := w]}) =
     Ok {| first_name := Some v; last_name := Some w; number := 42 |}).
Proof.
  split; [reflexivity|]. split; [reflexivity|]. split; [|split].
  - intros Hv. destruct (PyLong_AsLong_not_index v Hv) as (e & He & Hty).
    exists e. by rewrite Person_setattr_number, He.
  - intros n Hn. by apply Person_setattr_number_int.
  - intros Hmem. split.
    + by rewrite (type_call_ok mem [v; w] ∅ 42 Hmem
                    ltac:(compute_done) ltac:(reflexivity)).
    + assert (Hbinds : binds_parameters []
                         (<["first_name" := v]> {["last_name" := w]}))
        by compute_done.
      assert (Hn : int_argument []
                     (<["first_name" := v]> {["last_name" := w]}) 42 42)
        by (vm_compute; reflexivity).
      rewrite (type_call_ok mem _ _ 42 Hmem Hbinds Hn). vm_compute. reflexivity.
Qed.

(** Assigning the text "forty-two" to number is rejected. *)
Lemma Person_assignment_validation_witness :
  ∃ e, Person_setattr true
         {| first_name := Some (PyUnicode "John");
            last_name := Some (PyUnicode "Doe"); number := 42 |}
         "number" (Some (PyUnicode "forty-two"))
       = ({| first_name := Some (PyUnicode "John");
             last_name := Some (PyUnicode "Doe"); number := 42 |}, Raise e) ∧
       err_type e = PyExc_TypeError.
Proof.
  exact (proj1 (proj2 (proj2
           (Person_assignment_validation true 3
              {| first_name := Some (PyUnicode "John");
                 last_name := Some (PyUnicode "Doe"); number := 42 |}
              (PyUnicode "forty-two") Py_None)))
           ltac:(reflexivity)).
Defined.

(** C5 as stated fails: the integer 5 is no text value, yet assigning it to
    first_name succeeds, and so does constructing with it.  (On the side of
    number, an integer beyond the C long is rejected, with an
    [OverflowError].) *)
Lemma Person_first_name_accepts_integer :
  PyUnicode_Check (PyLong 5) = false ∧
  Person_setattr false
    {| first_name := Some (PyUnicode "John");
       last_name := Some (PyUnicode "Doe"); number := 42 |}
    "first_name" (Some (PyLong 5)) =
    ({| first_name := Some (PyLong 5);
        last_name := Some (PyUnicode "Doe"); number := 42 |}, Ok ()) ∧
  type_call 3 [] {["first_name" := PyLong 5]} =
    Ok {| first_name := Some (PyLong 5);
          last_name := Some (PyUnicode "Doe"); number := 42 |} ∧
  Person_setattr false
    {| first_name := Some (PyUnicode "John");
       last_name := Some (PyUnicode "Doe"); number := 42 |}
    "number" (Some (PyLong 18446744073709551616)) =
    ({| first_name := Some (PyUnicode "John");
        last_name := Some (PyUnicode "Doe"); number := 42 |},
     Raise (PyErr_SetString PyExc_OverflowError
              "Python int too large to convert to C long")).
Proof. repeat split; vm_compute; reflexivity. Qed.

(** C6, as amended.  The number field is a C int: for every integer n from
    [INT_MIN] to [INT_MAX], constructing a Person with number=n, by keyword
    or by position, or assigning n to number after construction, succeeds,
    and a subsequent read of number returns exactly n, under every warnings
    configuration [werror]. *)
Theorem Person_number_int_range werror mem self v w n :
  INT_MIN <= n <= INT_MAX →
  (3 <= mem)%nat →
  (∃ p, type_call mem [] {["number" := PyLong n]} = Ok p ∧
        Person_getattr p "number" = Some (Ok (PyLong n))) ∧
  (∃ p, type_call mem [v; w; PyLong n] ∅ = Ok p ∧
        Person_getattr p "number" = Some (Ok (PyLong n))) ∧
  (∃ self', Person_setattr werror self "number" (Some (PyLong n))
              = (self', Ok ()) ∧
            Person_getattr self' "number" = Some (Ok (PyLong n))).
Proof.
  intros Hn Hmem.
  assert (Hint : as_int (PyLong n) n) by (split; [by apply PyLong_AsLong_int|done]).
  split; [|split].
  - assert (Hbinds : binds_parameters [] {["number" := PyLong n]}) by compute_done.
    assert (Harg : int_argument [] {["number" := PyLong n]} 42 n).
    { unfold int_argument, argument. simpl. by rewrite lookup_singleton_eq. }
    eexists. split; [by apply (type_call_ok mem _ _ n)|]. reflexivity.
  - eexists. split;
      [by apply (type_call_ok mem [v; w; PyLong n] ∅ n Hmem
                   ltac:(compute_done))|].
    reflexivity.
  - eexists. by rewrite (Person_setattr_number_int werror self _ n Hint).
Qed.

Lemma Person_number_int_range_witness :
  (∃ p, type_call 3 [] {["number" := PyLong 7]} = Ok p ∧
        Person_getattr p "number" = Some (Ok (PyLong 7))) ∧
  (∃ p, type_call 3 [Py_None; Py_None; PyLong 7] ∅ = Ok p ∧
        Person_getattr p "number" = Some (Ok (PyLong 7))) ∧
  (∃ self',
     Person_setattr true
       {| first_name := Some (PyUnicode "John");
          last_name := Some (PyUnicode "Doe"); number := 42 |}
       "number" (Some (PyLong 7)) = (self', Ok ()) ∧
     Person_getattr self' "number" = Some (Ok (PyLong 7))).
Proof.
  exact (Person_number_int_range true 3
           {| first_name := Some (PyUnicode "John");
              last_name := Some (PyUnicode "Doe"); number := 42 |}
           Py_None Py_None 7 ltac:(compute_done) ltac:(lia)).
Defined.

(** C6 as stated fails at n = 2^31: construction raises [OverflowError], and
    the assignment succeeds (when warnings are only reported) but a read
    then returns -2^31; when warnings are raised the assignment fails, with
    -2^31 stored all the same. *)
Lemma Person_number_out_of_int_range :
  type_call 3 [] {["number" := PyLong 2147483648]} =
    Raise (PyErr_SetString PyExc_OverflowError
             "signed integer is greater than maximum") ∧
  Person_setattr false
    {| first_name := Some (PyUnicode "John");
       last_name := Some (PyUnicode "Doe"); number := 42 |}
    "number" (Some (PyLong 2147483648)) =
    ({| first_name := Some (PyUnicode "John");
        last_name := Some (PyUnicode "Doe"); number := -2147483648 |}, Ok ()) ∧
  Person_setattr true
    {| first_name := Some (PyUnicode "John");
       last_name := Some (PyUnicode "Doe"); number := 42 |}
    "number" (Some (PyLong 2147483648)) =
    ({| first_name := Some (PyUnicode "John");
        last_name := Some (PyUnicode "Doe"); number := -2147483648 |},
     Raise (PyErr_SetString PyExc_RuntimeWarning
              "Truncation of value to int")) ∧
  Person_getattr
    {| first_name := Some (PyUnicode "John");
       last_name := Some (PyUnicode "Doe"); number := -2147483648 |}
    "number" = Some (Ok (PyLong (-2147483648))).
Proof. repeat split; vm_compute; reflexivity. Qed.

(** ** The names stay set *)

Lemma holds_mono d vs vs' field :
  (∀ v, v ∈ vs → v ∈ vs') → holds d vs field → holds d vs' field.
Proof.
  intros Hsub (v & -> & Hv). exists v. split; [done|].
  destruct Hv as [Hd|Hv]; auto.
Qed.

Lemma argument_call_values args kwds j v :
  argument args kwds j = Some v → v ∈ call_values args kwds.
Proof.
  unfold argument, call_values. rewrite elem_of_app.
  destruct (args !! j) as [a|] eqn:Hj.
  - intros [= <-]. left. by eapply list_elem_of_lookup_2.
  - destruct (kwlist !! j) as [kw|]; simpl; [|done].
    intros Hkw. right.
    apply (list_elem_of_fmap_2' snd _ (kw, v)); [|done].
    by apply elem_of_map_to_list.
Qed.

(** [Person_init] leaves in each name its old pointer or one of the call's
    values, whether it succeeds or fails. *)
Lemma Person_init_names self args kwds :
  let self' := (Person_init self args kwds).1 in
  (first_name self' = first_name self ∨
   ∃ v, first_name self' = Some v ∧ v ∈ call_values args kwds) ∧
  (last_name self' = last_name self ∨
   ∃ v, last_name self' = Some v ∧ v ∈ call_values args kwds).
Proof.
  unfold Person_init.
  destruct (PyArg_ParseTupleAndKeywords args kwds "|OOi" kwlist)
    as [[[]|e] stored] eqn:Hparse; simpl.
  2: { by destruct (stored !! 2%nat) as [[[o|n]|]|]; auto. }
  assert (Hobj : ∀ j o, stored !! j = Some (Some (c_object o)) →
                        o ∈ call_values args kwds).
  { intros j o Hj.
    destruct (PyArg_ParseTupleAndKeywords_stored _ _ _ _ _ _ _ Hparse Hj)
      as (v & Hv & ->). by eapply argument_call_values. }
  destruct (stored !! 0%nat) as [[[o0|n0]|]|] eqn:H0;
    destruct (stored !! 1%nat) as [[[o1|n1]|]|] eqn:H1;
    destruct (stored !! 2%nat) as [[[o2|n2]|]|] eqn:H2; simpl;
    split; eauto.
Qed.

(** An assignment leaves in each name its old pointer or the assigned
    value. *)
Lemma Person_setattr_names werror self attr v :
  let self' := (Person_setattr werror self attr (Some v)).1 in
  (first_name self' = first_name self ∨ first_name self' = Some v) ∧
  (last_name self' = last_name self ∨ last_name self' = Some v).
Proof.
  unfold Person_setattr, find_member, Person_members.
  cbn [List.find name].
  destruct (String.eqb "first_name" attr); [simpl; auto|].
  destruct (String.eqb "last_name" attr); [simpl; auto|].
  destruct (String.eqb "number" attr);
    [|destruct (existsb _ _); simpl; auto].
  unfold PyMember_SetOne. simpl.
  destruct (PyLong_AsLong v); simpl; auto.
Qed.

Lemma step_holds werror (field : Person → option PyObject) d vs self op :
  field = first_name ∨ field = last_name →
  is_deletion op = false →
  holds d vs (field self) →
  holds d (vs ++ supplied_values op) (field (step werror self op)).
Proof.
  intros Hfield Hop Hself.
  assert (Hkeep : holds d (vs ++ supplied_values op) (field self)).
  { eapply holds_mono; [|done]. intros v Hv. apply elem_of_app. by left. }
  destruct op as [attr|attr v|attr| | |args kwds]; try done.
  - cbn [step supplied_values] in *.
    destruct (Person_setattr_names werror self attr v) as [Hfn Hln].
    destruct Hfield as [-> | ->].
    + destruct Hfn as [-> | ->]; [done|]. exists v. split; [done|]. right.
      apply elem_of_app. right. by apply list_elem_of_singleton.
    + destruct Hln as [-> | ->]; [done|]. exists v. split; [done|]. right.
      apply elem_of_app. right. by apply list_elem_of_singleton.
  - cbn [step supplied_values] in *.
    destruct (Person_init_names self args kwds) as [Hfn Hln].
    destruct Hfield as [-> | ->].
    + destruct Hfn as [-> | (v & -> & Hv)]; [done|]. exists v. split; [done|].
      right. apply elem_of_app. by right.
    + destruct Hln as [-> | (v & -> & Hv)]; [done|]. exists v. split; [done|].
      right. apply elem_of_app. by right.
Qed.

Lemma run_holds werror (field : Person → option PyObject) d ops :
  field = first_name ∨ field = last_name →
  Forall (fun op => is_deletion op = false) ops →
  ∀ vs self,
    holds d vs (field self) →
    holds d (vs ++ mjoin (supplied_values <$> ops))
      (field (run werror ops self)).
Proof.
  intros Hfield. induction 1 as [|op ops Hop Hops IH]; intros vs self Hself.
  - simpl. by rewrite app_nil_r.
  - simpl. rewrite app_assoc. apply IH. by apply step_holds.
Qed.

(** C7, as amended.  After every successful construction, and under every
    sequence of field reads, field writes, [name()], [str] and
    re-initializations, first_name and last_name stay set: each holds its
    default or a value the caller supplied in the construction or in one of
    the operations.  The sequence has no field deletion; the interface
    permits deletion, and a deleted name is unset.  It holds under every
    warnings configuration [werror]. *)
Theorem Person_names_stay_set werror mem args kwds self ops :
  type_call mem args kwds = Ok self →
  Forall (fun op => is_deletion op = false) ops →
  holds (PyUnicode "John")
    (call_values args kwds ++ mjoin (supplied_values <$> ops))
    (first_name (run werror ops self)) ∧
  holds (PyUnicode "Doe")
    (call_values args kwds ++ mjoin (supplied_values <$> ops))
    (last_name (run werror ops self)).
Proof.
  rewrite type_call_unfold.
  destruct (Person_new mem args kwds) as [obj|e] eqn:Hnew; [|done].
  apply Person_new_Ok_inv in Hnew as [_ ->].
  pose proof (Person_init_names
                {| first_name := Some (PyUnicode "John");
                   last_name := Some (PyUnicode "Doe"); number := 42 |}
                args kwds) as [Hfn Hln].
  destruct (Person_init _ args kwds) as [obj' [[]|e']]; [|done].
  intros [= ->] Hops. simpl in Hfn, Hln. split.
  - apply (run_holds werror first_name); [by left|done|].
    destruct Hfn as [-> | (v & -> & Hv)]; [exists (PyUnicode "John")|exists v]; auto.
  - apply (run_holds werror last_name); [by right|done|].
    destruct Hln as [-> | (v & -> & Hv)]; [exists (PyUnicode "Doe")|exists v]; auto.
Qed.

(** A record constructed with [last_name="Lovelace"], then renamed, read,
    printed and re-initialized. *)
Lemma Person_names_stay_set_witness :
  holds (PyUnicode "John")
    [PyUnicode "Lovelace"; PyUnicode "Ada"; PyLong 5]
    (first_name
       (run true [op_set "first_name" (PyUnicode "Ada"); op_get "number"; op_name;
             op_str; op_init [] {["number" := PyLong 5]}]
          {| first_name := Some (PyUnicode "John");
             last_name := Some (PyUnicode "Lovelace"); number := 42 |})) ∧
  holds (PyUnicode "Doe")
    [PyUnicode "Lovelace"; PyUnicode "Ada"; PyLong 5]
    (last_name
       (run true [op_set "first_name" (PyUnicode "Ada"); op_get "number"; op_name;
             op_str; op_init [] {["number" := PyLong 5]}]
          {| first_name := Some (PyUnicode "John");
             last_name := Some (PyUnicode "Lovelace"); number := 42 |})).
Proof.
  refine (Person_names_stay_set true 3 []
            {["last_name" := PyUnicode "Lovelace"]}
            {| first_name := Some (PyUnicode "John");
               last_name := Some (PyUnicode "Lovelace"); number := 42 |}
            [op_set "first_name" (PyUnicode "Ada"); op_get "number"; op_name;
             op_str; op_init [] {["number" := PyLong 5]}] _ _);
    [vm_compute; reflexivity|repeat constructor].
Defined.

(** C7 as stated fails: the interface permits [del p.first_name], after
    which first_name is unset, and [name()] raises. *)
Lemma Person_deleted_name_is_unset :
  type_call 3 [] ∅ =
    Ok {| first_name := Some (PyUnicode "John");
          last_name := Some (PyUnicode "Doe"); number := 42 |} ∧
  Person_setattr false
    {| first_name := Some (PyUnicode "John");
       last_name := Some (PyUnicode "Doe"); number := 42 |}
    "first_name" None =
    ({| first_name := None;
        last_name := Some (PyUnicode "Doe"); number := 42 |}, Ok ()) ∧
  first_name
    (run false [op_del "first_name"]
       {| first_name := Some (PyUnicode "John");
          last_name := Some (PyUnicode "Doe"); number := 42 |}) = None ∧
  Person_name
    (run false [op_del "first_name"]
       {| first_name := Some (PyUnicode "John");
          last_name := Some (PyUnicode "Doe"); number := 42 |}) =
    Raise (PyErr_SetString PyExc_AttributeError "first_name").
Proof. repeat split; vm_compute; reflexivity. Qed.

(** * Further properties of the module *)

(** ** Allocation *)

(** X1. [Person_new] needs three allocations: with fewer it raises
    [MemoryError] and returns no object, otherwise it returns the record of
    the defaults, whatever the arguments.  A construction that cannot
    allocate fails with [MemoryError] before any argument is parsed, also
    for an ill-formed call. *)
Theorem Person_new_memory mem args kwds :
  Person_new mem args kwds =
    (if (3 <=? mem)%nat
     then Ok {| first_name := Some (PyUnicode "John");
                last_name := Some (PyUnicode "Doe"); number := 42 |}
     else Raise PyErr_NoMemory) ∧
  ((mem < 3)%nat → type_call mem args kwds = Raise PyErr_NoMemory).
Proof.
  split; [by destruct mem as [|[|[|mem]]]|].
  intros Hmem. rewrite type_call_unfold.
  destruct mem as [|[|[|mem]]]; [done..|lia].
Qed.

(** Two allocations and four positional arguments: [MemoryError], not the
    arity error. *)
Lemma Person_new_memory_witness :
  type_call 2 [Py_None; Py_None; Py_None; Py_None] ∅ = Raise PyErr_NoMemory.
Proof.
  exact (proj2 (Person_new_memory 2 [Py_None; Py_None; Py_None; Py_None] ∅)
           ltac:(lia)).
Defined.

(** ** The outcomes of [Person_init] *)

Lemma convertitem_i_Raise v e :
  convertitem "i" v = Raise e →
  PyLong_AsLong v = Raise e ∨
  ∃ n, PyLong_AsLong v = Ok n ∧ (n < INT_MIN ∨ INT_MAX < n) ∧
       err_type e = PyExc_OverflowError.
Proof.
  unfold convertitem. simpl.
  destruct (PyLong_AsLong v) as [n|e'] eqn:Hv; simpl; [|intros [= <-]; by left].
  destruct (INT_MAX <? n) eqn:H1.
  { intros [= <-]. right. exists n. apply Z.ltb_lt in H1. auto. }
  destruct (n <? INT_MIN) eqn:H2; [|done].
  intros [= <-]. right. exists n. apply Z.ltb_lt in H2. auto.
Qed.

(** A well-formed call has at most three arguments in all. *)
Lemma binds_parameters_arity args kwds :
  binds_parameters args kwds → (length args + size kwds <= 3)%nat.
Proof.
  intros Hbinds.
  destruct (size_kwds kwds) as (rest & Hsize & Hrest).
  pose proof (proj2 Hrest (binds_parameters_keys _ _ Hbinds)) as ->. clear Hrest.
  destruct Hbinds as (Hlen & _ & Hdisj). unfold present in Hsize.
  destruct args as [|a0 [|a1 [|a2 [|a3 args]]]]; simpl in Hlen, Hdisj; try lia.
  all: repeat (apply Forall_cons in Hdisj as [?Hpos Hdisj]).
  all: rewrite Hsize, ?Hpos, ?Hpos0, ?Hpos1; simpl.
  all: destruct (kwds !! "first_name"), (kwds !! "last_name"),
         (kwds !! "number"); simpl; lia.
Qed.

Lemma Person_init_Raise_kind self args kwds self' e :
  Person_init self args kwds = (self', Raise e) →
  err_type e = PyExc_TypeError ∨
  ∃ v, argument args kwds 2 = Some v ∧ convertitem "i" v = Raise e.
Proof.
  destruct (size_kwds kwds) as (rest & Hsize & Hrest).
  unfold argument. unfold present in Hsize.
  call_shapes args kwds rest.
  all: run_parser Hsize H1 H2 H3.
  all: try (intros [= <- <-]; by left).
  all: try discriminate.
  all: try (destruct (extraneous_keyword kwds kwlist) eqn:Hx; simpl;
            [intros [= <- <-]; by left|discriminate]).
  all: try (destruct (convertitem "i" _) as [cv|e0] eqn:Hc; simpl;
            [|intros [= <- <-]; right; eauto]).
  all: unfold vgetargskeywords_end, name_and_position; simpl;
       rewrite ?H1, ?H2, ?H3; simpl.
  all: try (intros [= <- <-]; by left).
  all: try discriminate.
  all: try (destruct (extraneous_keyword kwds kwlist) eqn:Hx; simpl;
            [intros [= <- <-]; by left|discriminate]).
Qed.

(** X2. [Person_init] succeeds exactly on the well-formed calls whose number
    argument, if there is one, converts to a C int: at most three positional
    arguments, only the three parameter names as keywords, no parameter
    given twice.  Whether it succeeds does not depend on the record. *)
Theorem Person_init_succeeds_iff self args kwds :
  (∃ self', Person_init self args kwds = (self', Ok ())) ↔
  binds_parameters args kwds ∧
  (∀ v, argument args kwds 2 = Some v → ∃ n, as_int v n).
Proof.
  split.
  - intros [self' Hinit].
    destruct (Person_init_Ok_inv _ _ _ _ Hinit) as (Hbinds & n & Hn).
    split; [done|]. intros v Hv. unfold int_argument in Hn.
    rewrite Hv in Hn. eauto.
  - intros [Hbinds Hconv].
    assert (Hn : ∃ n, int_argument args kwds (number self) n).
    { unfold int_argument. destruct (argument args kwds 2) as [v|]; eauto. }
    destruct Hn as [n Hn]. eexists. by apply (Person_init_ok _ _ _ n).
Qed.

(** The success of [init("Ada", number=5)] shows the call well formed. *)
Lemma Person_init_succeeds_iff_witness :
  binds_parameters [PyUnicode "Ada"] {["number" := PyLong 5]} ∧
  (∀ v, argument [PyUnicode "Ada"] {["number" := PyLong 5]} 2 = Some v →
        ∃ n, as_int v n).
Proof.
  refine (proj1 (Person_init_succeeds_iff
                   {| first_name := None; last_name := None; number := 0 |}
                   [PyUnicode "Ada"] {["number" := PyLong 5]}) _).
  eexists. vm_compute. reflexivity.
Defined.

(** X3. Every failure of [Person_init] is a [TypeError] (too many
    arguments, a parameter given by position and by name, an unknown
    keyword, a number argument that is no integer), an [OverflowError] for
    an integer outside the C int, or the exception that the integer
    conversion of the number argument itself raised. *)
Theorem Person_init_failure_kinds self args kwds self' e :
  Person_init self args kwds = (self', Raise e) →
  err_type e = PyExc_TypeError ∨
  ∃ v, argument args kwds 2 = Some v ∧
       (PyLong_AsLong v = Raise e ∨
        ∃ n, PyLong_AsLong v = Ok n ∧ (n < INT_MIN ∨ INT_MAX < n) ∧
             err_type e = PyExc_OverflowError).
Proof.
  intros Hinit.
  destruct (Person_init_Raise_kind _ _ _ _ _ Hinit) as [?|(v & Hv & Hconv)];
    [by left|].
  right. exists v. split; [done|]. by apply convertitem_i_Raise.
Qed.

Lemma Person_init_failure_kinds_witness :
  err_type (PyErr_SetString PyExc_TypeError
              "argument for function given by name ('first_name') and position (1)")
    = PyExc_TypeError ∨
  ∃ v, argument [PyUnicode "Ada"] {["first_name" := PyUnicode "Bob"]} 2 = Some v ∧
       (PyLong_AsLong v =
          Raise (PyErr_SetString PyExc_TypeError
                   "argument for function given by name ('first_name') and position (1)") ∨
        ∃ n, PyLong_AsLong v = Ok n ∧ (n < INT_MIN ∨ INT_MAX < n) ∧
             err_type (PyErr_SetString PyExc_TypeError
                         "argument for function given by name ('first_name') and position (1)")
               = PyExc_OverflowError).
Proof.
  refine (Person_init_failure_kinds
            {| first_name := None; last_name := None; number := 0 |}
            [PyUnicode "Ada"] {["first_name" := PyUnicode "Bob"]}
            {| first_name := None; last_name := None; number := 0 |} _ _).
  vm_compute. reflexivity.
Defined.

(** X4. A number argument that is an integer outside the C int makes
    [Person_init] fail with [OverflowError] and leaves the record as it
    was, when the call has no more than three arguments. *)
Theorem Person_init_overflow self args kwds n :
  argument args kwds 2 = Some (PyLong n) →
  n < INT_MIN ∨ INT_MAX < n →
  (length args + size kwds <= 3)%nat →
  ∃ e, Person_init self args kwds = (self, Raise e) ∧
       err_type e = PyExc_OverflowError.
Proof.
  intros Harg Hn Hlen.
  assert (Hconv : ∃ e, convertitem "i" (PyLong n) = Raise e ∧
                       err_type e = PyExc_OverflowError).
  { unfold convertitem, PyLong_AsLong. simpl.
    destruct (_ || _); simpl; [eauto|].
    destruct (INT_MAX <? n) eqn:H1; [eauto|].
    destruct (n <? INT_MIN) eqn:H2; [eauto|].
    apply Z.ltb_ge in H1, H2. lia. }
  destruct Hconv as (e & Hconv & Hty).
  destruct (Person_init_conversion_error self _ _ _ _ Harg Hconv)
    as (e' & -> & [->|[Hlen' _]]); [eauto|lia].
Qed.

Lemma Person_init_overflow_witness :
  ∃ e, Person_init
         {| first_name := Some (PyUnicode "John");
            last_name := Some (PyUnicode "Doe"); number := 42 |}
         [PyUnicode "Ada"] {["number" := PyLong (-2147483649)]}
       = ({| first_name := Some (PyUnicode "John");
             last_name := Some (PyUnicode "Doe"); number := 42 |}, Raise e) ∧
       err_type e = PyExc_OverflowError.
Proof.
  refine (Person_init_overflow
            {| first_name := Some (PyUnicode "John");
               last_name := Some (PyUnicode "Doe"); number := 42 |}
            [PyUnicode "Ada"] {["number" := PyLong (-2147483649)]}
            (-2147483649) _ _ _);
    [vm_compute; reflexivity|left; reflexivity|vm_compute; lia].
Defined.



(** X6. The effect of a well-formed call depends only on which value is
    bound to which parameter, not on whether it is bound by position or by
    keyword: two well-formed calls with the same bindings leave the same
    record and the same outcome, also when the number argument does not
    convert. *)
Theorem Person_init_by_arguments self args kwds args' kwds' :
  binds_parameters args kwds →
  binds_parameters args' kwds' →
  (∀ i, argument args kwds i = argument args' kwds' i) →
  Person_init self args kwds = Person_init self args' kwds'.
Proof.
  intros Hbinds Hbinds' Hsame.
  destruct (argument args kwds 2) as [v|] eqn:Harg.
  - destruct (convertitem "i" v) as [cv|e] eqn:Hconv.
    + apply convertitem_i_Ok in Hconv as (n & -> & Hn).
      rewrite (Person_init_ok self args kwds n),
        (Person_init_ok self args' kwds' n); try done.
      * by rewrite !Hsame.
      * unfold int_argument. by rewrite <- Hsame, Harg.
      * unfold int_argument. by rewrite Harg.
    + destruct (Person_init_conversion_error self _ _ _ _ Harg Hconv)
        as (e1 & -> & [->|[Hlen _]]);
        [|apply binds_parameters_arity in Hbinds; lia].
      rewrite Hsame in Harg.
      destruct (Person_init_conversion_error self _ _ _ _ Harg Hconv)
        as (e2 & -> & [->|[Hlen _]]);
        [done|apply binds_parameters_arity in Hbinds'; lia].
  - rewrite (Person_init_ok self args kwds (number self)),
      (Person_init_ok self args' kwds' (number self)); try done.
    + by rewrite !Hsame.
    + unfold int_argument. by rewrite <- Hsame, Harg.
    + unfold int_argument. by rewrite Harg.
Qed.

(** [init("Ada", "Byron", 7)] and [init("Ada", number=7, last_name="Byron")]. *)
Lemma Person_init_by_arguments_witness :
  Person_init
    {| first_name := None; last_name := None; number := 0 |}
    [PyUnicode "Ada"; PyUnicode "Byron"; PyLong 7] ∅ =
  Person_init
    {| first_name := None; last_name := None; number := 0 |}
    [PyUnicode "Ada"]
    (<["number" := PyLong 7]> {["last_name" := PyUnicode "Byron"]}).
Proof.
  refine (Person_init_by_arguments
            {| first_name := None; last_name := None; number := 0 |}
            [PyUnicode "Ada"; PyUnicode "Byron"; PyLong 7] ∅
            [PyUnicode "Ada"]
            (<["number" := PyLong 7]> {["last_name" := PyUnicode "Byron"]})
            _ _ _);
    [compute_done|compute_done|].
  intros [|[|[|i]]]; vm_compute; reflexivity.
Defined.

(** X7. A well-formed, converting call of [Person_init] does what the
    assignments of its arguments to the attributes do, one after the
    other: [init(a, number=c)] is [p.first_name = a; p.number = c].  It
    holds under every warnings configuration [werror]. *)
Theorem Person_init_as_assignments werror self args kwds :
  binds_parameters args kwds →
  (∀ v, argument args kwds 2 = Some v → ∃ n, as_int v n) →
  Person_init self args kwds =
    (run werror (assignments args kwds) self, Ok ()).
Proof.
  intros Hbinds Hconv.
  assert (Hn : ∃ n, int_argument args kwds (number self) n).
  { unfold int_argument. destruct (argument args kwds 2) as [v|]; eauto. }
  destruct Hn as [n Hn]. rewrite (Person_init_ok _ _ _ n Hbinds Hn).
  f_equal. unfold assignments, int_argument in *.
  destruct (argument args kwds 0) as [a|], (argument args kwds 1) as [b|],
    (argument args kwds 2) as [c|]; simpl.
  all: match type of Hn with
       | as_int _ _ => rewrite (Person_setattr_number_int werror _ _ n Hn)
       | _ => subst n
       end.
  all: by destruct self.
Qed.

Lemma Person_init_as_assignments_witness :
  Person_init
    {| first_name := Some (PyUnicode "John");
       last_name := Some (PyUnicode "Doe"); number := 42 |}
    [PyUnicode "Ada"] {["number" := PyLong 5]} =
  (run true [op_set "first_name" (PyUnicode "Ada");
             op_set "number" (PyLong 5)]
     {| first_name := Some (PyUnicode "John");
        last_name := Some (PyUnicode "Doe"); number := 42 |}, Ok ()).
Proof.
  refine (Person_init_as_assignments true
            {| first_name := Some (PyUnicode "John");
               last_name := Some (PyUnicode "Doe"); number := 42 |}
            [PyUnicode "Ada"] {["number" := PyLong 5]} _ _);
    [compute_done|].
  intros v Hv. vm_compute in Hv. injection Hv as <-. exists 5. compute_done.
Defined.

(** ** Text, on every record *)

(** X8. [str] of a record fails only when [str()] of one of its two names
    fails, and then with that exception, first_name being converted first;
    otherwise it is the formatted text.  It has no check for an unset name:
    the host prints it as "<NULL>". *)
Theorem Person_str_outcome self :
  Person_str self =
    f ← PyObject_Str (first_name self);
    l ← PyObject_Str (last_name self);
    Ok (PyUnicode ("Person(first_name=" +:+ f +:+ ", last_name=" +:+ l +:+
                   ", number=" +:+ decimal (number self) +:+ ")")).
Proof.
  unfold Person_str, PyUnicode_FromFormat. run_format.
  destruct (PyObject_Str (first_name self)) as [f|e]; [|done].
  by destruct (PyObject_Str (last_name self)) as [l|e].
Qed.

(** ** The members *)

Lemma find_member_cases attr :
  (attr = "first_name" ∧ find_member attr = Person_members !! 0%nat) ∨
  (attr = "last_name" ∧ find_member attr = Person_members !! 1%nat) ∨
  (attr = "number" ∧ find_member attr = Person_members !! 2%nat) ∨
  (attr ≠ "first_name" ∧ attr ≠ "last_name" ∧ attr ≠ "number" ∧
   find_member attr = None).
Proof.
  unfold find_member, Person_members. cbn [List.find name].
  destruct (String.eqb_spec "first_name" attr) as [<-|?]; [by left|].
  destruct (String.eqb_spec "last_name" attr) as [<-|?]; [by right; left|].
  destruct (String.eqb_spec "number" attr) as [<-|?]; [by right; right; left|].
  right; right; right. repeat split; congruence.
Qed.

Lemma int_of_long_range (z : Z) : INT_MIN <= int_of_long z <= INT_MAX.
Proof.
  unfold int_of_long, INT_MIN, INT_MAX.
  pose proof (Z.mod_pos_bound (z - -2147483648) (2147483647 - -2147483648 + 1)).
  lia.
Qed.

Lemma int_of_long_congruent (z : Z) : (int_of_long z - z) mod 2 ^ 32 = 0.
Proof.
  unfold int_of_long, INT_MIN, INT_MAX.
  change (2147483647 - -2147483648 + 1) with (2 ^ 32).
  rewrite (Z.mod_eq (z - -2147483648) (2 ^ 32)) by lia.
  replace (z - -2147483648 - 2 ^ 32 * ((z - -2147483648) / 2 ^ 32)
           + -2147483648 - z)
    with (- ((z - -2147483648) / 2 ^ 32) * 2 ^ 32) by lia.
  apply Z.mod_mul. lia.
Qed.

(** X9. A successful assignment reads back: a name attribute returns the
    very object that was assigned, number returns the C int that the value
    converted to; and every other attribute reads as before (the three
    fields are independent).  It holds under every warnings configuration
    [werror]. *)
Theorem Person_setattr_getattr werror self attr v self' :
  Person_setattr werror self attr (Some v) = (self', Ok ()) →
  ∃ w, Person_getattr self' attr = Some (Ok w) ∧
       (attr ≠ "number" → w = v) ∧
       (attr = "number" →
        ∃ n, PyLong_AsLong v = Ok n ∧ w = PyLong (int_of_long n)) ∧
       ∀ attr', attr' ≠ attr →
                Person_getattr self' attr' = Person_getattr self attr'.
Proof.
  destruct (find_member_cases attr)
    as [[-> Hfind]|[[-> Hfind]|[[-> Hfind]|(? & ? & ? & Hfind)]]].
  - intros [= <-]. exists v. repeat split; [done|].
    intros attr' Hne. unfold Person_getattr.
    by destruct (find_member_cases attr')
      as [[-> Hf]|[[-> Hf]|[[-> Hf]|(? & ? & ? & Hf)]]]; rewrite Hf.
  - intros [= <-]. exists v. repeat split; [done|].
    intros attr' Hne. unfold Person_getattr.
    by destruct (find_member_cases attr')
      as [[-> Hf]|[[-> Hf]|[[-> Hf]|(? & ? & ? & Hf)]]]; rewrite Hf.
  - rewrite Person_setattr_number.
    destruct (PyLong_AsLong v) as [n|e]; [|discriminate]. intros [= <- _].
    exists (PyLong (int_of_long n)). repeat split; [done|eauto|].
    intros attr' Hne. unfold Person_getattr.
    by destruct (find_member_cases attr')
      as [[-> Hf]|[[-> Hf]|[[-> Hf]|(? & ? & ? & Hf)]]]; rewrite Hf.
  - unfold Person_setattr. rewrite Hfind.
    by destruct (existsb _ _).
Qed.

Lemma Person_setattr_getattr_witness :
  ∃ w, Person_getattr
         {| first_name := Some (PyUnicode "John");
            last_name := Some (PyLong 7); number := 42 |} "last_name"
       = Some (Ok w) ∧
       ("last_name" ≠ "number" → w = PyLong 7) ∧
       ("last_name" = "number" →
        ∃ n, PyLong_AsLong (PyLong 7) = Ok n ∧ w = PyLong (int_of_long n)) ∧
       ∀ attr', attr' ≠ "last_name" →
         Person_getattr
           {| first_name := Some (PyUnicode "John");
              last_name := Some (PyLong 7); number := 42 |} attr' =
         Person_getattr
           {| first_name := Some (PyUnicode "John");
              last_name := Some (PyUnicode "Doe"); number := 42 |} attr'.
Proof.
  exact (Person_setattr_getattr true
           {| first_name := Some (PyUnicode "John");
              last_name := Some (PyUnicode "Doe"); number := 42 |}
           "last_name" (PyLong 7)
           {| first_name := Some (PyUnicode "John");
              last_name := Some (PyLong 7); number := 42 |}
           ltac:(reflexivity)).
Defined.

(** X10. An assignment or deletion that fails never changes the names, and
    it leaves the whole record exactly as it was in every case but one:
    when warnings are raised as errors ([werror]), assigning to number an
    integer that fits a C long but not a C int fails with the
    [RuntimeWarning] "Truncation of value to int" after the truncated
    value [(int)long_val] has been stored.  So when warnings are not
    errors, a failed assignment or deletion stores nothing. *)
Theorem Person_setattr_failure_unchanged werror self attr v self' e :
  Person_setattr werror self attr v = (self', Raise e) →
  first_name self' = first_name self ∧
  last_name self' = last_name self ∧
  (self' = self ∨
   werror = true ∧ attr = "number" ∧
   e = PyErr_SetString PyExc_RuntimeWarning "Truncation of value to int" ∧
   ∃ v' n, v = Some v' ∧ PyLong_AsLong v' = Ok n ∧
           (n < INT_MIN ∨ INT_MAX < n) ∧
           self' = set_number (int_of_long n) self).
Proof.
  destruct (find_member_cases attr)
    as [[-> Hfind]|[[-> Hfind]|[[-> Hfind]|(? & ? & ? & Hfind)]]].
  - destruct v as [v|]; [discriminate|].
    destruct self as [[fn|] ln n]; [discriminate|].
    intros [= <- _]. auto.
  - destruct v as [v|]; [discriminate|].
    destruct self as [fn [ln|] n]; [discriminate|].
    intros [= <- _]. auto.
  - destruct v as [v|]; [|intros [= <- _]; auto].
    rewrite Person_setattr_number.
    destruct (PyLong_AsLong v) as [n|e'] eqn:Hv; [|intros [= <- _]; auto].
    destruct (INT_MAX <? n) eqn:H1; simpl.
    + apply Z.ltb_lt in H1. destruct werror; [|discriminate].
      intros [= <- <-]. do 2 (split; [done|]). right.
      do 3 (split; [done|]). exists v, n. auto.
    + destruct (n <? INT_MIN) eqn:H2; [|discriminate].
      apply Z.ltb_lt in H2. destruct werror; [|discriminate].
      intros [= <- <-]. do 2 (split; [done|]). right.
      do 3 (split; [done|]). exists v, n. auto.
  - unfold Person_setattr. rewrite Hfind.
    destruct (existsb _ _); intros [= <- _]; auto.
Qed.

(** Under warnings-as-errors, assigning 2^31 to number fails and leaves
    -2^31 in the record. *)
Lemma Person_setattr_failure_unchanged_witness :
  Person_setattr true
    {| first_name := Some (PyUnicode "John");
       last_name := Some (PyUnicode "Doe"); number := 42 |}
    "number" (Some (PyLong 2147483648)) =
    ({| first_name := Some (PyUnicode "John");
        last_name := Some (PyUnicode "Doe"); number := -2147483648 |},
     Raise (PyErr_SetString PyExc_RuntimeWarning
              "Truncation of value to int")) ∧
  (Some (PyUnicode "John") = Some (PyUnicode "John") ∧
   Some (PyUnicode "Doe") = Some (PyUnicode "Doe") ∧
   ({| first_name := Some (PyUnicode "John");
       last_name := Some (PyUnicode "Doe"); number := -2147483648 |} =
    {| first_name := Some (PyUnicode "John");
       last_name := Some (PyUnicode "Doe"); number := 42 |} ∨
    true = true ∧ "number" = "number" ∧
    PyErr_SetString PyExc_RuntimeWarning "Truncation of value to int" =
    PyErr_SetString PyExc_RuntimeWarning "Truncation of value to int" ∧
    ∃ v' n, Some (PyLong 2147483648) = Some v' ∧ PyLong_AsLong v' = Ok n ∧
            (n < INT_MIN ∨ INT_MAX < n) ∧
            {| first_name := Some (PyUnicode "John");
               last_name := Some (PyUnicode "Doe"); number := -2147483648 |} =
            set_number (int_of_long n)
              {| first_name := Some (PyUnicode "John");
                 last_name := Some (PyUnicode "Doe"); number := 42 |})).
Proof.
  split; [reflexivity|].
  exact (Person_setattr_failure_unchanged true
           {| first_name := Some (PyUnicode "John");
              last_name := Some (PyUnicode "Doe"); number := 42 |}
           "number" (Some (PyLong 2147483648))
           {| first_name := Some (PyUnicode "John");
              last_name := Some (PyUnicode "Doe"); number := -2147483648 |}
           (PyErr_SetString PyExc_RuntimeWarning "Truncation of value to int")
           ltac:(reflexivity)).
Defined.

(** X11. Deleting a name attribute succeeds exactly when the attribute is
    set.  Afterwards the attribute is unset: reading it raises
    [AttributeError] with the message
    "'mymodule.Person' object has no attribute '<name>'", deleting it
    again raises [AttributeError] with the attribute's bare name as the
    message, and the other attributes read as before.  It holds under every
    warnings configuration [werror]. *)
Theorem Person_delattr_name werror self attr :
  attr = "first_name" ∨ attr = "last_name" →
  ∃ self' r,
    Person_setattr werror self attr None = (self', r) ∧
    (r = Ok () ↔ ∃ v, Person_getattr self attr = Some (Ok v)) ∧
    Person_getattr self' attr =
      Some (Raise (PyErr_SetString PyExc_AttributeError
                     ("'" +:+ tp_name PersonType +:+
                      "' object has no attribute '" +:+ attr +:+ "'"))) ∧
    Person_setattr werror self' attr None =
      (self', Raise (PyErr_SetString PyExc_AttributeError attr)) ∧
    ∀ attr', attr' ≠ attr →
             Person_getattr self' attr' = Person_getattr self attr'.
Proof.
  intros [-> | ->]; destruct self as [[fn|] [ln|] n].
  all: eexists _, _; split; [reflexivity|].
  all: split;
    [split; [intros H|intros [v H]]; first [discriminate H|by eauto]|].
  all: split; [reflexivity|]; split; [reflexivity|].
  all: intros attr' Hne; unfold Person_getattr.
  all: by destruct (find_member_cases attr')
         as [[-> Hf]|[[-> Hf]|[[-> Hf]|(? & ? & ? & Hf)]]]; rewrite Hf.
Qed.

Lemma Person_delattr_name_witness :
  ∃ self' r,
    Person_setattr false
      {| first_name := Some (PyUnicode "John");
         last_name := Some (PyUnicode "Doe"); number := 42 |}
      "last_name" None = (self', r) ∧
    (r = Ok () ↔
     ∃ v, Person_getattr
            {| first_name := Some (PyUnicode "John");
               last_name := Some (PyUnicode "Doe"); number := 42 |}
            "last_name" = Some (Ok v)) ∧
    Person_getattr self' "last_name" =
      Some (Raise (PyErr_SetString PyExc_AttributeError
              "'mymodule.Person' object has no attribute 'last_name'")) ∧
    Person_setattr false self' "last_name" None =
      (self', Raise (PyErr_SetString PyExc_AttributeError "last_name")) ∧
    ∀ attr', attr' ≠ "last_name" →
      Person_getattr self' attr' =
      Person_getattr
        {| first_name := Some (PyUnicode "John");
           last_name := Some (PyUnicode "Doe"); number := 42 |} attr'.
Proof.
  exact (Person_delattr_name false
           {| first_name := Some (PyUnicode "John");
              last_name := Some (PyUnicode "Doe"); number := 42 |}
           "last_name" ltac:(right; reflexivity)).
Defined.

(** X13. Assigning to number an integer that fits a C long stores the
    conversion [(int)long_val]: the one C int congruent to it modulo 2^32
    (the integer itself when it is a C int), the names staying as they
    are.  The assignment succeeds exactly when the integer is a C int or
    warnings are not raised as errors ([werror] is false); otherwise it
    fails, after the store, with the [RuntimeWarning] "Truncation of value
    to int".  Assigning an integer beyond the C long is rejected with
    [OverflowError] and stores nothing. *)
Theorem Person_setattr_number_wraps werror self n :
  (LONG_MIN <= n <= LONG_MAX →
   ∃ self' r,
     Person_setattr werror self "number" (Some (PyLong n)) = (self', r) ∧
     INT_MIN <= number self' <= INT_MAX ∧
     (number self' - n) mod 2 ^ 32 = 0 ∧
     (INT_MIN <= n <= INT_MAX → number self' = n) ∧
     first_name self' = first_name self ∧ last_name self' = last_name self ∧
     (r = Ok () ↔ INT_MIN <= n <= INT_MAX ∨ werror = false) ∧
     (r ≠ Ok () →
      r = Raise (PyErr_SetString PyExc_RuntimeWarning
                   "Truncation of value to int"))) ∧
  (n < LONG_MIN ∨ LONG_MAX < n →
   ∃ e, Person_setattr werror self "number" (Some (PyLong n))
          = (self, Raise e) ∧
        err_type e = PyExc_OverflowError).
Proof.
  rewrite Person_setattr_number.
  change (PyLong_AsLong (PyLong n))
    with (if (n <? LONG_MIN) || (LONG_MAX <? n)
          then Raise (PyErr_SetString PyExc_OverflowError
                        "Python int too large to convert to C long")
          else Ok n).
  split.
  - intros Hn.
    destruct (n <? LONG_MIN) eqn:H1; [apply Z.ltb_lt in H1; lia|].
    destruct (LONG_MAX <? n) eqn:H2; [apply Z.ltb_lt in H2; lia|].
    cbn [orb]. eexists _, _. split; [reflexivity|]. cbn [number set_number].
    split; [apply int_of_long_range|].
    split; [apply int_of_long_congruent|].
    split; [apply int_of_long_int|].
    do 2 (split; [done|]).
    assert (Hout : (INT_MAX <? n) || (n <? INT_MIN) = true ↔
                   ¬ INT_MIN <= n <= INT_MAX).
    { rewrite orb_true_iff, !Z.ltb_lt. lia. }
    destruct ((INT_MAX <? n) || (n <? INT_MIN)).
    + apply proj1 in Hout. specialize (Hout eq_refl).
      destruct werror; cbn [PyErr_WarnEx].
      * split; [|done]. split; [discriminate|]. intros [?|?]; done.
      * split; [|done]. split; [by right|done].
    + assert (INT_MIN <= n <= INT_MAX).
      { destruct (decide (INT_MIN <= n <= INT_MAX)) as [?|Hne]; [done|].
        by apply Hout in Hne. }
      split; [|done]. split; [by left|done].
  - intros Hn.
    destruct (n <? LONG_MIN) eqn:H1; cbn [orb]; [eauto|].
    destruct (LONG_MAX <? n) eqn:H2; cbn [orb]; [eauto|].
    apply Z.ltb_ge in H1, H2. lia.
Qed.

(** Under warnings-as-errors, assigning 2^32 + 5 stores 5 and fails with
    the warning. *)
Lemma Person_setattr_number_wraps_witness :
  ∃ self' r,
    Person_setattr true
      {| first_name := Some (PyUnicode "John");
         last_name := Some (PyUnicode "Doe"); number := 42 |}
      "number" (Some (PyLong 4294967301)) = (self', r) ∧
    INT_MIN <= number self' <= INT_MAX ∧
    (number self' - 4294967301) mod 2 ^ 32 = 0 ∧
    (INT_MIN <= 4294967301 <= INT_MAX → number self' = 4294967301) ∧
    first_name self' = Some (PyUnicode "John") ∧
    last_name self' = Some (PyUnicode "Doe") ∧
    (r = Ok () ↔ INT_MIN <= 4294967301 <= INT_MAX ∨ true = false) ∧
    (r ≠ Ok () →
     r = Raise (PyErr_SetString PyExc_RuntimeWarning
                  "Truncation of value to int")).
Proof.
  exact (proj1 (Person_setattr_number_wraps true
                  {| first_name := Some (PyUnicode "John");
                     last_name := Some (PyUnicode "Doe"); number := 42 |}
                  4294967301)
           ltac:(compute_done)).
Defined.

(** ** The number stays a C int *)

(** [Person_init] leaves in number its old value or the converted number
    argument, whether it succeeds or fails. *)
Lemma Person_init_number self args kwds :
  number (Person_init self args kwds).1 = number self ∨
  ∃ v, argument args kwds 2 = Some v ∧
       as_int v (number (Person_init self args kwds).1).
Proof.
  unfold Person_init.
  destruct (PyArg_ParseTupleAndKeywords args kwds "|OOi" kwlist)
    as [r stored] eqn:Hparse.
  assert (Hint : ∀ n, stored !! 2%nat = Some (Some (c_int n)) →
                      ∃ v, argument args kwds 2 = Some v ∧ as_int v n).
  { intros n Hn.
    by destruct (PyArg_ParseTupleAndKeywords_stored _ _ _ _ _ _ _ Hparse Hn)
      as (v & Hv & Hconv); exists v. }
  destruct (stored !! 2%nat) as [[[o2|n2]|]|] eqn:H2;
    destruct r as [[]|e]; simpl;
    destruct (stored !! 0%nat) as [[[o0|n0]|]|];
    destruct (stored !! 1%nat) as [[[o1|n1]|]|]; simpl; eauto.
Qed.

Lemma step_number_range werror self op :
  INT_MIN <= number self <= INT_MAX →
  INT_MIN <= number (step werror self op) <= INT_MAX.
Proof.
  intros Hself.
  destruct op as [attr|attr v|attr| | |args kwds]; simpl; try done.
  - destruct (find_member_cases attr)
      as [[-> Hf]|[[-> Hf]|[[-> Hf]|(? & ? & ? & Hf)]]]; try done.
    + rewrite Person_setattr_number.
      destruct (PyLong_AsLong v); [apply int_of_long_range|done].
    + unfold Person_setattr. rewrite Hf. by destruct (existsb _ _).
  - unfold Person_setattr.
    destruct (find_member_cases attr)
      as [[-> Hf]|[[-> Hf]|[[-> Hf]|(? & ? & ? & Hf)]]]; rewrite Hf; try done.
    + unfold PyMember_SetOne. simpl. by destruct (first_name self).
    + unfold PyMember_SetOne. simpl. by destruct (last_name self).
    + by destruct (existsb _ _).
  - destruct (Person_init_number self args kwds) as [->|(v & _ & _ & Hv)]; done.
Qed.

(** X12. The number of a constructed record is a C int, and stays one under
    every sequence of operations (reads, assignments, deletions, [name()],
    [str], re-initializations), whether they succeed or fail, and under
    every warnings configuration [werror]. *)
Theorem Person_number_stays_int werror mem args kwds self ops :
  type_call mem args kwds = Ok self →
  INT_MIN <= number (run werror ops self) <= INT_MAX.
Proof.
  rewrite type_call_unfold.
  destruct (Person_new mem args kwds) as [obj|e] eqn:Hnew; [|done].
  apply Person_new_Ok_inv in Hnew as [_ ->].
  pose proof (Person_init_number
                {| first_name := Some (PyUnicode "John");
                   last_name := Some (PyUnicode "Doe"); number := 42 |}
                args kwds) as Hinit.
  destruct (Person_init _ args kwds) as [obj' [[]|e']]; [|done].
  intros [= ->]. simpl in Hinit.
  assert (Hself : INT_MIN <= number self <= INT_MAX).
  { destruct Hinit as [->|(v & _ & _ & Hv)]; [compute_done|done]. }
  clear Hinit. revert self Hself.
  induction ops as [|op ops IH]; intros self Hself; [done|].
  simpl. apply IH. by apply step_number_range.
Qed.

Lemma Person_number_stays_int_witness :
  INT_MIN <=
    number
      (run true [op_set "number" (PyLong 4294967301); op_del "number";
                 op_init [] (<["number" := PyLong 9]>
                               {["bogus" := Py_None]})]
         {| first_name := Some (PyUnicode "John");
            last_name := Some (PyUnicode "Doe"); number := 7 |})
    <= INT_MAX.
Proof.
  refine (Person_number_stays_int true 3 [] {["number" := PyLong 7]}
            {| first_name := Some (PyUnicode "John");
               last_name := Some (PyUnicode "Doe"); number := 7 |}
            [op_set "number" (PyLong 4294967301); op_del "number";
             op_init [] (<["number" := PyLong 9]> {["bogus" := Py_None]})] _).
  vm_compute. reflexivity.
Defined.

(** ** Module initialisation *)

Section PyInit_properties.
Variable PY_MAJOR_VERSION : Z.
Variable PY_MINOR_VERSION : Z.
Variable PY_VERSION_HEX : N.


(** X15. [PyInit_mymodule] keeps one reference to [PersonType] exactly when
    it returns the module, which then owns it; on every failure it has
    given back the reference it took.  Its output is the version messages,
    which the two versions alone determine (nothing when they are the same,
    two lines when the major or the minor version differs), followed by the
    line with [PY_VERSION_HEX] exactly when the module is returned: a run
    that fails prints the version messages and nothing else, whichever of
    the host's steps failed. *)
Theorem PyInit_mymodule_references host major minor :
  let run := PyInit_mymodule PY_MAJOR_VERSION PY_MINOR_VERSION PY_VERSION_HEX
               host major minor in
  let base10 z := NilZero.string_of_int (Z.to_int z) in
  let messages :=
    if decide (major ≠ PY_MAJOR_VERSION) then
      ("mymodule was built for version '" +:+ base10 PY_MAJOR_VERSION +:+
       "' but is being run by python '" +:+ base10 major +:+ "'" +:+ LF) +:+
      "mymodule: Different major versions: For sure that won't work!" +:+ LF
    else if decide (minor ≠ PY_MINOR_VERSION) then
      ("mymodule was built for version '" +:+ base10 PY_MAJOR_VERSION +:+
       "." +:+ base10 PY_MINOR_VERSION +:+
       "' but is being run by python '" +:+ base10 major +:+ "." +:+
       base10 minor +:+ "'" +:+ LF) +:+
      "mymodule: different python versions not sure what the implication is"
      +:+ LF
    else "" in
  PersonType_references run = (if returned run is Some _ then 1 else 0) ∧
  stdout run =
    messages +:+
    (if returned run is Some _
     then "PY_VERSION_HEX = " +:+ hexadecimal PY_VERSION_HEX +:+ LF
     else "") ∧
  (messages = "" ↔ major = PY_MAJOR_VERSION ∧ minor = PY_MINOR_VERSION).
Proof.
  unfold PyInit_mymodule, version_difference.
  destruct (Z.eqb_spec major PY_MAJOR_VERSION) as [Hmajor|Hmajor];
    cbn [negb].
  2: { rewrite decide_True by done. cbn [returned stdout PersonType_references].
       split; [done|]. split; [symmetry; apply string_app_empty_r|].
       split; [intros H; cbv [String.append] in H; discriminate H|].
       by intros [? _]. }
  rewrite (decide_False (P := major ≠ PY_MAJOR_VERSION)) by auto.
  destruct (Z.eqb_spec minor PY_MINOR_VERSION) as [Hminor|Hminor];
    cbn [negb].
  - rewrite (decide_False (P := minor ≠ PY_MINOR_VERSION)) by auto.
    destruct host as [[] [] []];
      cbn [negb type_ready module_created object_added returned stdout
           PersonType_references]; by repeat split.
  - rewrite decide_True by done.
    destruct host as [[] [] []];
      cbn [negb type_ready module_created object_added returned stdout
           PersonType_references];
      (split; [done|]);
      (split; [first [reflexivity|symmetry; apply string_app_empty_r]|]);
      (split; [intros H; cbv [String.append] in H; discriminate H|]);
      by intros [_ ?].
Qed.
End PyInit_properties.
